(** * Smart multiplug: consumption aggregation, read model and ingest route

    A shallow embedding of [app.py].  Python [float]s are the kernel's
    binary64 floats, so every arithmetic step below rounds exactly as the
    interpreter does; Python [int]s are [Z].  The four ORM tables are lists
    of rows in insertion (rowid) order, a query [filter_by(...).first()] is
    the first matching row, and every function takes the wall clock it
    reads ([datetime.now()]) as an argument. *)

From Stdlib Require Import ZArith List Bool Lia Floats Ascii.
From stdpp Require Import base decidable option list strings gmap pretty.

Set Warnings "-inexact-float".
Open Scope Z_scope.

(** ** Python numbers *)

(** [float(z)] for an [int]: the nearest binary64 value. *)
Definition float_of_Z (z : Z) : float :=
  SF2Prim (binary_normalize prec emax z 0 false).

(** A value that is an [int] or a [float] at run time (the dashboard mixes
    the literal [0] with stored floats). *)
Inductive pynum : Type :=
  | PyInt (z : Z)
  | PyFloat (f : float).

Definition to_float (x : pynum) : float :=
  match x with PyInt z => float_of_Z z | PyFloat f => f end.

(** [x += y]: integer addition on two [int]s, float addition otherwise. *)
Definition py_add (x y : pynum) : pynum :=
  match x, y with
  | PyInt a, PyInt b => PyInt (a + b)
  | _, _ => PyFloat (to_float x + to_float y)
  end.

(** Nearest integer to [n / d], ties to the even one ([0 <= n], [0 < d]). *)
Definition round_half_even_div (n d : Z) : Z :=
  let q := n / d in
  let r := n mod d in
  match 2 * r ?= d with
  | Lt => q
  | Gt => q + 1
  | Eq => if Z.even q then q else q + 1
  end.

Definition SF_of_Z (s : bool) (q : Z) : spec_float :=
  match q with Zpos p => S754_finite s p 0 | _ => S754_zero s end.

(** [round(x, 2)] on a float: the exact binary value is rounded half-even to
    two decimals, and the decimal result is read back as the nearest float;
    the sign is kept, and infinities and NaN round to themselves. *)
Definition round2 (x : float) : float :=
  match Prim2SF x with
  | S754_finite s m e =>
      let hundredths :=
        if 0 <=? e then Zpos m * 2 ^ e * 100
        else round_half_even_div (Zpos m * 100) (2 ^ (- e)) in
      SF2Prim (SFdiv prec emax (SF_of_Z s hundredths) (SF_of_Z false 100))
  | _ => x
  end.

(** [round(x, 2)]: an [int] is returned as it is. *)
Definition py_round2 (x : pynum) : pynum :=
  match x with
  | PyInt z => PyInt z
  | PyFloat f => PyFloat (round2 f)
  end.

(** ** Calendar dates *)

Record date : Type := Date { year : Z; month : Z; day : Z }.

#[global] Instance date_eq_dec : EqDecision date.
Proof. solve_decision. Defined.

Definition is_leap (y : Z) : bool :=
  (y mod 4 =? 0) && (negb (y mod 100 =? 0) || (y mod 400 =? 0)).

Definition month_length (y m : Z) : Z :=
  if m =? 2 then (if is_leap y then 29 else 28)
  else if (m =? 4) || (m =? 6) || (m =? 9) || (m =? 11) then 30
  else 31.

Definition next_day (d : date) : date :=
  if day d <? month_length (year d) (month d)
  then Date (year d) (month d) (day d + 1)
  else if month d <? 12 then Date (year d) (month d + 1) 1
  else Date (year d + 1) 1 1.

Definition prev_day (d : date) : date :=
  if 1 <? day d then Date (year d) (month d) (day d - 1)
  else if 1 <? month d
  then Date (year d) (month d - 1) (month_length (year d) (month d - 1))
  else Date (year d - 1) 12 31.

(** [d + timedelta(days=n)] and [d.replace(day=k)]. *)
Definition add_days (n : nat) (d : date) : date := Nat.iter n next_day d.
Definition replace_day (k : Z) (d : date) : date := Date (year d) (month d) k.

(** ** Database models

    The autoincrement [id] of every table and the [timestamp] of
    [realtime_data] are written but never read, and are left out.  The
    records are stored rows.  The declared [default] of a column (0.0, 0.0
    and 0 in the consumption tables) is filled in by the INSERT: on an
    object that was just constructed, an attribute not given to the
    constructor is [None]. *)

Module RealtimeData.
Record t : Type := Build
  { port : Z; voltage : float; current : float; power : float;
    status : string }.
End RealtimeData.

Module DailyConsumption.
Record t : Type := Build
  { date_ : date; port : Z; energy_kwh : float; cost_bdt : float;
    runtime_minutes : Z }.
End DailyConsumption.

Module MonthlyConsumption.
Record t : Type := Build
  { year_ : Z; month_ : Z; port : Z; energy_kwh : float; cost_bdt : float }.
End MonthlyConsumption.

(** The [value] column holds the text [str(rate)] and is read back with
    [float(...)]; that round trip is exact, so the column is kept as the
    float it denotes. *)
Module Settings.
Record t : Type := Build { key : string; value : float }.
End Settings.

Record database : Type := Database
  { realtime_data : list RealtimeData.t;
    daily_consumption : list DailyConsumption.t;
    monthly_consumption : list MonthlyConsumption.t;
    settings : list Settings.t }.

Definition set_realtime (rows : list RealtimeData.t) (db : database) :=
  Database rows (daily_consumption db) (monthly_consumption db) (settings db).
Definition set_daily (rows : list DailyConsumption.t) (db : database) :=
  Database (realtime_data db) rows (monthly_consumption db) (settings db).
Definition set_monthly (rows : list MonthlyConsumption.t) (db : database) :=
  Database (realtime_data db) (daily_consumption db) rows (settings db).

(** ** Queries *)

Section Query.
Context {A : Type}.

(** [query.filter_by(..).first()] *)
Definition first (sel : A -> bool) (rows : list A) : option A :=
  List.find sel rows.

(** [query.filter_by(..).delete()] *)
Definition delete_where (sel : A -> bool) (rows : list A) : list A :=
  List.filter (fun r => negb (sel r)) rows.

(** Attribute assignments on the row returned by [first()], committed. *)
Fixpoint update_first (sel : A -> bool) (f : A -> A) (rows : list A) : list A :=
  match rows with
  | [] => []
  | r :: rest => if sel r then f r :: rest else r :: update_first sel f rest
  end.

(** [db.session.add(row)] of a new row, committed. *)
Definition add_row (r : A) (rows : list A) : list A := rows ++ [r].
End Query.

(** ** Rate store *)

Definition ELECTRICITY_RATE_BDT : float := 8.0.

Definition rate_key (s : Settings.t) : bool :=
  bool_decide (Settings.key s = "electricity_rate_bdt").

Definition get_electricity_rate (db : database) : float :=
  match first rate_key (settings db) with
  | Some rate_setting => Settings.value rate_setting
  | None => ELECTRICITY_RATE_BDT
  end.

(** ** Exceptions

    A function that can raise returns a [result]. *)

Inductive exn : Type := TypeError | ValueError | OverflowError | KeyError.

Inductive result (A : Type) : Type :=
  | Ok (a : A)
  | Raise (e : exn).
Arguments Ok {A} a.
Arguments Raise {A} e.

Definition bind {A B : Type} (r : result A) (k : A -> result B) : result B :=
  match r with Ok a => k a | Raise e => Raise e end.

Declare Scope result_scope.
Delimit Scope result_scope with result.
Notation "x <- r ;; k" := (bind r (fun x => k))
  (at level 100, r at next level, right associativity) : result_scope.

(** ** Consumption aggregator *)

Definition calculate_energy_kwh (power_watts : float) (minutes : Z) : float :=
  (power_watts * float_of_Z minutes / float_of_Z (1000 * 60))%float.

Definition realtime_port (port : Z) (r : RealtimeData.t) : bool :=
  RealtimeData.port r =? port.

Definition update_realtime_data (port : Z) (voltage current power : float)
    (db : database) : database :=
  let status := if (0 <? power)%float then "online" else "offline" in
  let new_data := RealtimeData.Build port voltage current power status in
  set_realtime
    (add_row new_data (delete_where (realtime_port port) (realtime_data db))) db.

Definition daily_key (today : date) (port : Z) (r : DailyConsumption.t) : bool :=
  bool_decide (DailyConsumption.date_ r = today) && (DailyConsumption.port r =? port).

Definition daily_bump (energy_kwh cost_bdt power_watts : float)
    (r : DailyConsumption.t) : DailyConsumption.t :=
  DailyConsumption.Build
    (DailyConsumption.date_ r) (DailyConsumption.port r)
    (DailyConsumption.energy_kwh r + energy_kwh)
    (DailyConsumption.cost_bdt r + cost_bdt)
    (if (0 <? power_watts)%float
     then DailyConsumption.runtime_minutes r + 1
     else DailyConsumption.runtime_minutes r).

(** When no row is found, [daily_record] is the new object
    [DailyConsumption(date=today, port=port)], whose [energy_kwh] is [None]:
    [daily_record.energy_kwh += energy_kwh] raises [TypeError] before the
    commit, and the pending row is dropped with the session. *)
Definition update_daily_consumption (now : date) (port : Z) (power_watts : float)
    (db : database) : result database :=
  let today := now in
  let energy_kwh := calculate_energy_kwh power_watts 1 in
  let cost_bdt := (energy_kwh * get_electricity_rate db)%float in
  let bump := daily_bump energy_kwh cost_bdt power_watts in
  match first (daily_key today port) (daily_consumption db) with
  | Some _ =>
      Ok (set_daily (update_first (daily_key today port) bump (daily_consumption db))
            db)
  | None => Raise TypeError
  end.

Definition monthly_key (y m : Z) (port : Z) (r : MonthlyConsumption.t) : bool :=
  (MonthlyConsumption.year_ r =? y) && (MonthlyConsumption.month_ r =? m)
  && (MonthlyConsumption.port r =? port).

Definition monthly_bump (energy_kwh cost_bdt : float)
    (r : MonthlyConsumption.t) : MonthlyConsumption.t :=
  MonthlyConsumption.Build
    (MonthlyConsumption.year_ r) (MonthlyConsumption.month_ r)
    (MonthlyConsumption.port r)
    (MonthlyConsumption.energy_kwh r + energy_kwh)
    (MonthlyConsumption.cost_bdt r + cost_bdt).

(** As for the day: on the new object [monthly_record.energy_kwh] is [None]
    and [+=] raises [TypeError]. *)
Definition update_monthly_consumption (now : date) (port : Z)
    (energy_kwh cost_bdt : float) (db : database) : result database :=
  let sel := monthly_key (year now) (month now) port in
  let bump := monthly_bump energy_kwh cost_bdt in
  match first sel (monthly_consumption db) with
  | Some _ => Ok (set_monthly (update_first sel bump (monthly_consumption db)) db)
  | None => Raise TypeError
  end.

(** A sequence of updates that each commit: the database as last committed,
    and the exception that ended the sequence, if one did. *)
Record run : Type := Run { committed : database; raised : option exn }.

(** The three updates [receive_esp_data] performs on a validated sample
    ([generate_sample_data] repeats them for each port).  Each update
    commits on its own, so an update that raises leaves the commits of the
    updates before it in place. *)
Definition ingest (now : date) (port : Z) (voltage current power : float)
    (db : database) : run :=
  let db := update_realtime_data port voltage current power db in
  match update_daily_consumption now port power db with
  | Raise e => Run db (Some e)
  | Ok db =>
      let energy_kwh := calculate_energy_kwh power 1 in
      let cost_bdt := (energy_kwh * get_electricity_rate db)%float in
      match update_monthly_consumption now port energy_kwh cost_bdt db with
      | Raise e => Run db (Some e)
      | Ok db => Run db None
      end
  end.

(** ** Dashboard projector *)

Definition format_runtime (minutes : Z) : string :=
  let hours := minutes / 60 in
  let mins := minutes mod 60 in
  pretty hours +:+ "h " +:+ pretty mins +:+ "m".

(** [range(a, b)] and the dictionary key [f'port{port}']. *)
Definition py_range (a b : Z) : list Z := seqZ a (b - a).
Definition port_key (port : Z) : string := "port" +:+ pretty port.

Module RealtimeView.
Record t : Type := Build
  { voltage : pynum; current : pynum; power : pynum; status : string }.
End RealtimeView.

Module TodayView.
Record t : Type := Build { energy : pynum; cost : pynum; runtime : string }.
End TodayView.

(** The per-port entries have no ['days'] key; the ['total'] entry has. *)
Module MonthlyView.
Record t : Type := Build { energy : pynum; cost : pynum; days : option Z }.
End MonthlyView.

Record dashboard : Type := Dashboard
  { realtime : gmap string RealtimeView.t;
    today : gmap string TodayView.t;
    monthly : gmap string MonthlyView.t;
    electricity_rate : float }.

Definition realtime_entry (data : option RealtimeData.t) : RealtimeView.t :=
  match data with
  | Some data =>
      RealtimeView.Build
        (PyFloat (RealtimeData.voltage data)) (PyFloat (RealtimeData.current data))
        (PyFloat (RealtimeData.power data)) (RealtimeData.status data)
  | None => RealtimeView.Build (PyInt 0) (PyInt 0) (PyInt 0) "offline"
  end.

Definition realtime_loop (db : database) : gmap string RealtimeView.t :=
  fold_left
    (fun acc port =>
       <[port_key port :=
           realtime_entry (first (realtime_port port) (realtime_data db))]> acc)
    (py_range 1 5) ∅.

(** Loop state of the second loop: the dictionary and the three running
    totals. *)
Record today_acc : Type := TodayAcc
  { today_data : gmap string TodayView.t;
    total_today_energy : pynum;
    total_today_cost : pynum;
    total_today_runtime : Z }.

Definition today_step (db : database) (today : date) (acc : today_acc) (port : Z)
    : today_acc :=
  match first (daily_key today port) (daily_consumption db) with
  | Some daily =>
      TodayAcc
        (<[port_key port :=
             TodayView.Build
               (py_round2 (PyFloat (DailyConsumption.energy_kwh daily)))
               (py_round2 (PyFloat (DailyConsumption.cost_bdt daily)))
               (format_runtime (DailyConsumption.runtime_minutes daily))]>
           (today_data acc))
        (py_add (total_today_energy acc) (PyFloat (DailyConsumption.energy_kwh daily)))
        (py_add (total_today_cost acc) (PyFloat (DailyConsumption.cost_bdt daily)))
        (total_today_runtime acc + DailyConsumption.runtime_minutes daily)
  | None =>
      TodayAcc
        (<[port_key port := TodayView.Build (PyInt 0) (PyInt 0) "0h 0m"]>
           (today_data acc))
        (total_today_energy acc) (total_today_cost acc) (total_today_runtime acc)
  end.

Definition today_loop (db : database) (today : date) : today_acc :=
  fold_left (today_step db today) (py_range 1 5) (TodayAcc ∅ (PyInt 0) (PyInt 0) 0).

Record monthly_acc : Type := MonthlyAcc
  { monthly_data : gmap string MonthlyView.t;
    total_month_energy : pynum;
    total_month_cost : pynum }.

Definition monthly_step (db : database) (current_year current_month : Z)
    (acc : monthly_acc) (port : Z) : monthly_acc :=
  match first (monthly_key current_year current_month port) (monthly_consumption db) with
  | Some monthly =>
      MonthlyAcc
        (<[port_key port :=
             MonthlyView.Build
               (py_round2 (PyFloat (MonthlyConsumption.energy_kwh monthly)))
               (py_round2 (PyFloat (MonthlyConsumption.cost_bdt monthly)))
               None]>
           (monthly_data acc))
        (py_add (total_month_energy acc)
           (PyFloat (MonthlyConsumption.energy_kwh monthly)))
        (py_add (total_month_cost acc)
           (PyFloat (MonthlyConsumption.cost_bdt monthly)))
  | None =>
      MonthlyAcc
        (<[port_key port := MonthlyView.Build (PyInt 0) (PyInt 0) None]>
           (monthly_data acc))
        (total_month_energy acc) (total_month_cost acc)
  end.

Definition monthly_loop (db : database) (current_year current_month : Z) : monthly_acc :=
  fold_left (monthly_step db current_year current_month) (py_range 1 5)
    (MonthlyAcc ∅ (PyInt 0) (PyInt 0)).

(** The value the source names [days_in_month]: the last day of the current
    month, as a date. *)
Definition last_day_of_month (now : date) : date :=
  prev_day (replace_day 1 (add_days 32 (replace_day 1 now))).

Definition get_dashboard_data (now : date) (db : database) : dashboard :=
  let today := now in
  let current_month := month now in
  let current_year := year now in
  let realtime_data := realtime_loop db in
  let t := today_loop db today in
  let today_data :=
    <["total" :=
        TodayView.Build (py_round2 (total_today_energy t))
          (py_round2 (total_today_cost t))
          (format_runtime (total_today_runtime t))]> (today_data t) in
  let m := monthly_loop db current_year current_month in
  let days_in_month := last_day_of_month now in
  let current_day := day now in
  let monthly_data :=
    <["total" :=
        MonthlyView.Build (py_round2 (total_month_energy m))
          (py_round2 (total_month_cost m)) (Some current_day)]> (monthly_data m) in
  Dashboard realtime_data today_data monthly_data (get_electricity_rate db).

(** ** Routes *)

(** A field of the JSON request body, as [request.get_json()] decodes it.
    The body itself is taken to be a JSON object, a map from field names to
    such values. *)
Inductive json : Type :=
  | JNull
  | JBool (b : bool)
  | JInt (z : Z)
  | JFloat (f : float)
  | JStr (s : string)
  | JNested.   (* an array or an object *)

(** The JSON answer of a route: [{'success': True}], [{'error': '<text>'}]
    or [{'error': str(e)}], with its HTTP status. *)
Inductive answer : Type :=
  | Success
  | Error (message : string)
  | ErrorOf (e : exn).

Record response : Type := Response { body : answer; status_code : Z }.

(** What a route leaves behind: its response, the committed database and the
    views it pushed with [socketio.emit('data_update', ..)]. *)
Record outcome : Type := Outcome
  { reply : response; store : database; emitted : list dashboard }.

(** [int(f)] on a float truncates toward zero. *)
Definition int_of_float (f : float) : result Z :=
  match Prim2SF f with
  | S754_zero _ => Ok 0
  | S754_finite s m e =>
      let a := if 0 <=? e then Zpos m * 2 ^ e else Zpos m / 2 ^ (- e) in
      Ok (if s then - a else a)
  | S754_infinity _ => Raise OverflowError
  | S754_nan => Raise ValueError
  end.

Section Routes.
(** Python's readers of numerals, [int(s)] and [float(s)] on a [str];
    [None] stands for the [ValueError] they raise. *)
Variable int_of_str : string -> option Z.
Variable float_of_str : string -> option float.

Definition py_int (v : json) : result Z :=
  match v with
  | JInt z => Ok z
  | JBool b => Ok (if b then 1 else 0)
  | JFloat f => int_of_float f
  | JStr s => match int_of_str s with Some z => Ok z | None => Raise ValueError end
  | JNull | JNested => Raise TypeError
  end.

Definition py_float (v : json) : result float :=
  match v with
  | JFloat f => Ok f
  | JInt z =>
      let f := float_of_Z z in
      if is_infinity f then Raise OverflowError else Ok f
  | JBool b => Ok (if b then 1 else 0)%float
  | JStr s => match float_of_str s with Some f => Ok f | None => Raise ValueError end
  | JNull | JNested => Raise TypeError
  end.

(** [data[field]] *)
Definition item (data : gmap string json) (field : string) : result json :=
  match data !! field with Some v => Ok v | None => Raise KeyError end.

Definition required_fields : list string := ["port"; "voltage"; "current"; "power"].

(** [POST /api/data].  An exception of a conversion is raised before the
    first write; one raised by an update is caught by the same
    [except Exception], after the commits of the updates before it. *)
Definition receive_esp_data (now : date) (data : gmap string json)
    (db : database) : outcome :=
  let attempt : result outcome :=
    if negb (forallb (fun field => bool_decide (is_Some (data !! field)))
               required_fields)
    then Ok (Outcome (Response (Error "Missing required fields") 400) db [])
    else
      (port <- bind (item data "port") py_int ;;
       if (port <? 1) || (port >? 4)
       then Ok (Outcome (Response (Error "Invalid port number") 400) db [])
       else
         voltage <- bind (item data "voltage") py_float ;;
         current <- bind (item data "current") py_float ;;
         power <- bind (item data "power") py_float ;;
         let updates := ingest now port voltage current power db in
         let db := committed updates in
         match raised updates with
         | Some e => Ok (Outcome (Response (ErrorOf e) 500) db [])
         | None =>
             Ok (Outcome (Response Success 200) db [get_dashboard_data now db])
         end)%result
  in
  match attempt with
  | Ok o => o
  | Raise e => Outcome (Response (ErrorOf e) 500) db []
  end.
End Routes.

(** [filter_by(date=today)] *)
Definition dated (today : date) (r : DailyConsumption.t) : bool :=
  bool_decide (DailyConsumption.date_ r = today).

(** [POST /api/reset-daily] *)
Definition reset_daily_data (now : date) (db : database) : outcome :=
  let today := now in
  let db := set_daily (delete_where (dated today) (daily_consumption db)) db in
  Outcome (Response Success 200) db [get_dashboard_data now db].

(** ** Rate store: start-up and the rate route *)

Definition set_settings (rows : list Settings.t) (db : database) :=
  Database (realtime_data db) (daily_consumption db) (monthly_consumption db) rows.

(** [db.create_all()] finds the four tables in place; the default rate is
    stored when no rate setting exists. *)
Definition init_database (db : database) : database :=
  match first rate_key (settings db) with
  | Some _ => db
  | None =>
      set_settings
        (add_row (Settings.Build "electricity_rate_bdt" ELECTRICITY_RATE_BDT)
           (settings db)) db
  end.

(** [rate_setting.value = str(new_rate)] *)
Definition set_value (new_rate : float) (s : Settings.t) : Settings.t :=
  Settings.Build (Settings.key s) new_rate.

Section RateRoute.
Variable float_of_str : string -> option float.

(** [POST /api/settings/rate] *)
Definition update_electricity_rate (data : gmap string json) (db : database)
    : outcome :=
  let attempt : result outcome :=
    (new_rate <- bind (item data "rate") (py_float float_of_str) ;;
     let db :=
       match first rate_key (settings db) with
       | Some _ =>
           set_settings (update_first rate_key (set_value new_rate) (settings db)) db
       | None =>
           set_settings
             (add_row (Settings.Build "electricity_rate_bdt" new_rate) (settings db))
             db
       end in
     Ok (Outcome (Response Success 200) db []))%result
  in
  match attempt with
  | Ok o => o
  | Raise e => Outcome (Response (ErrorOf e) 500) db []
  end.
End RateRoute.

(** ** Sample producer

    The random generator is the sequence of its unit draws
    ([random.random()], in [0, 1)) and a cursor into it. *)

Record rng : Type := Rng { draws : nat -> float; cursor : nat }.

Definition random_random (g : rng) : float * rng :=
  (draws g (cursor g), Rng (draws g) (S (cursor g))).

(** [random.uniform(a, b)] is [a + (b - a) * random()]. *)
Definition random_uniform (a b : Z) (g : rng) : float * rng :=
  let '(u, g) := random_random g in
  ((float_of_Z a + float_of_Z (b - a) * u)%float, g).

Definition base_voltages : list Z := [220; 218; 222; 219].

(** [random.uniform(lo, hi) if random.random() > threshold else 0], with the
    range and the threshold of the port's device. *)
Definition sample_power (port : Z) (g : rng) : float * rng :=
  let draw (lo hi : Z) (threshold : float) :=
    let '(gate, g) := random_random g in
    if (threshold <? gate)%float then random_uniform lo hi g else (0%float, g) in
  if port =? 1 then draw 800 1200 0.3%float
  else if port =? 2 then draw 150 300 0.1%float
  else if port =? 3 then draw 20 60 0.2%float
  else draw 50 200 0.7%float.

(** What a turn of the loop can raise: the two exceptions of its own
    expressions, and those of the updates. *)
Inductive sample_error : Type :=
  | IndexError
  | ZeroDivisionError
  | Raised (e : exn).

(** One turn of the loop of [generate_sample_data].  The literal [0] of an
    idle port is stored in a float column and is the float zero here.  A
    raised exception leaves the loop with what was committed so far. *)
Definition sample_port (now : date) (port : Z) (st : database * rng)
    : database * rng * option sample_error :=
  let '(db, g) := st in
  let '(power, g) := sample_power port g in
  let voltage : sample_error + float * rng :=
    if (0 <? power)%float then
      match base_voltages !! Z.to_nat (port - 1) with
      | Some base =>
          let '(jitter, g) := random_uniform (-5) 5 g in
          inr ((float_of_Z base + jitter)%float, g)
      | None => inl IndexError
      end
    else inr (0%float, g) in
  match voltage with
  | inl e => (db, g, Some e)
  | inr (voltage, g) =>
      let current : sample_error + float :=
        if (0 <? voltage)%float then
          (if (voltage =? 0)%float then inl ZeroDivisionError
           else inr (power / voltage)%float)
        else inr 0%float in
      match current with
      | inl e => (db, g, Some e)
      | inr current =>
          let updates := ingest now port voltage current power db in
          (committed updates, g, Raised <$> raised updates)
      end
  end.

Fixpoint sample_ports (now : date) (ports : list Z) (st : database * rng)
    : database * rng * option sample_error :=
  match ports with
  | [] => (st, None)
  | port :: rest =>
      match sample_port now port st with
      | (st, None) => sample_ports now rest st
      | (st, Some e) => (st, Some e)
      end
  end.

Definition generate_sample_data (now : date) (st : database * rng)
    : database * rng * option sample_error :=
  sample_ports now (py_range 1 5) st.

(** ** Notions used in the statements *)

(** The stored bucket of a key, if there is one. *)
Definition daily_bucket (today : date) (port : Z) (db : database)
    : option DailyConsumption.t :=
  first (daily_key today port) (daily_consumption db).

Definition monthly_bucket (now : date) (port : Z) (db : database)
    : option MonthlyConsumption.t :=
  first (monthly_key (year now) (month now) port) (monthly_consumption db).

Definition today_entry (daily : option DailyConsumption.t) : TodayView.t :=
  match daily with
  | Some daily =>
      TodayView.Build
        (py_round2 (PyFloat (DailyConsumption.energy_kwh daily)))
        (py_round2 (PyFloat (DailyConsumption.cost_bdt daily)))
        (format_runtime (DailyConsumption.runtime_minutes daily))
  | None => TodayView.Build (PyInt 0) (PyInt 0) "0h 0m"
  end.

Definition monthly_entry (monthly : option MonthlyConsumption.t) : MonthlyView.t :=
  match monthly with
  | Some monthly =>
      MonthlyView.Build
        (py_round2 (PyFloat (MonthlyConsumption.energy_kwh monthly)))
        (py_round2 (PyFloat (MonthlyConsumption.cost_bdt monthly))) None
  | None => MonthlyView.Build (PyInt 0) (PyInt 0) None
  end.

(** The buckets the projector finds for ports 1 to 4, in port order. *)
Definition todays_buckets (now : date) (db : database) : list DailyConsumption.t :=
  omap (fun port => first (daily_key now port) (daily_consumption db)) (py_range 1 5).

Definition months_buckets (now : date) (db : database) : list MonthlyConsumption.t :=
  omap (fun port => first (monthly_key (year now) (month now) port)
                      (monthly_consumption db)) (py_range 1 5).

(** A running total started at the literal [0]. *)
Definition py_sum (xs : list pynum) : pynum := fold_left py_add xs (PyInt 0).

(** The per-port figures the dashboard shows for today and for the month. *)
Definition shown_today (field : TodayView.t -> pynum) (view : dashboard) : list pynum :=
  omap (fun port => field <$> today view !! port_key port) (py_range 1 5).

Definition shown_monthly (field : MonthlyView.t -> pynum) (view : dashboard)
    : list pynum :=
  omap (fun port => field <$> monthly view !! port_key port) (py_range 1 5).

(** Databases and request bodies of the worked examples. *)

Definition empty_db : database := Database [] [] [] [].

(** A database with one daily and one monthly bucket for port 1, holding
    0.01 kWh at a cost of 0.08. *)
Definition one_bucket (now : date) : database :=
  Database []
    [DailyConsumption.Build now 1 0.01 0.08 1]
    [MonthlyConsumption.Build (year now) (month now) 1 0.01 0.08]
    [].

(** The database right after start-up: no rows but the default rate. *)
Definition fresh_db : database := init_database empty_db.



(** Four ports that each used 0.004 kWh today, at a cost of 0.032. *)
Definition four_small_buckets (now : date) : database :=
  Database []
    ((fun port => DailyConsumption.Build now port 0.004 0.032 1) <$> py_range 1 5)
    ((fun port => MonthlyConsumption.Build (year now) (month now) port 0.004 0.032)
       <$> py_range 1 5)
    [].

(** A reader for examples whose strings are not numerals (such as ["abc"]):
    [int(s)] and [float(s)] raise [ValueError] on them. *)
Definition not_a_numeral {A : Type} (s : string) : option A := None.

Definition sample_body (port voltage current power : json) : gmap string json :=
  <["port" := port]> (<["voltage" := voltage]>
    (<["current" := current]> (<["power" := power]> ∅))).

(** Binary64 mantissas and exponents. *)

(** Number of binary digits of a positive integer ([int.bit_length]). *)
Definition bit_length (n : Z) : Z := Z.log2 n + 1.

(** The value [m * 2^e] of a mantissa and exponent, in units of 2^-1074. *)
Definition ulps (m : positive) (e : Z) : Z := Zpos m * 2 ^ (e + 1074).

(** After [j] one-bit shifts of [m0]: the mantissa kept, and no bit set in
    the round and sticky positions when only zeros were shifted out. *)
Definition shr_inv (m0 j : Z) (mrs : shr_record) : Prop :=
  shr_m mrs = m0 / 2 ^ j /\
  (m0 mod 2 ^ j = 0 -> shr_r mrs = false /\ shr_s mrs = false).

(** Zero, a positive number or plus infinity. *)
Definition SFnonneg (x : spec_float) : bool :=
  match x with
  | S754_zero _ | S754_finite false _ _ | S754_infinity false => true
  | _ => false
  end.

(** Number of rows a query selects. *)
Definition count {A : Type} (sel : A -> bool) (rows : list A) : nat :=
  length (List.filter sel rows).

(** The uniqueness the tables are meant to keep: at most one snapshot per
    port, one bucket per key and one rate setting. *)
Definition unique_rows (db : database) : Prop :=
  (forall port, (count (realtime_port port) (realtime_data db) <= 1)%nat) /\
  (forall d port, (count (daily_key d port) (daily_consumption db) <= 1)%nat) /\
  (forall y m port,
     (count (monthly_key y m port) (monthly_consumption db) <= 1)%nat) /\
  (count rate_key (settings db) <= 1)%nat.


(** Two databases the projector cannot tell apart at the clock [now]. *)
Definition same_reads (now : date) (db1 db2 : database) : Prop :=
  get_electricity_rate db1 = get_electricity_rate db2 /\
  Forall (fun port =>
            first (realtime_port port) (realtime_data db1) =
              first (realtime_port port) (realtime_data db2) /\
            first (daily_key now port) (daily_consumption db1) =
              first (daily_key now port) (daily_consumption db2) /\
            first (monthly_key (year now) (month now) port) (monthly_consumption db1) =
              first (monthly_key (year now) (month now) port) (monthly_consumption db2))
    (py_range 1 5).

(** The store after a list of readings [(port, (voltage, current, power))],
    ingested in order, each as far as it gets. *)
Definition ingest_all (now : date) (samples : list (Z * (float * float * float)))
    (db : database) : database :=
  fold_left
    (fun db s => let '(port, (v, c, p)) := s in committed (ingest now port v c p db))
    samples db.

(** The power range and the idle threshold [generate_sample_data] uses for
    the device on a port. *)
Definition device (port : Z) : Z * Z * float :=
  if port =? 1 then (800, 1200, 0.3%float)
  else if port =? 2 then (150, 300, 0.1%float)
  else if port =? 3 then (20, 60, 0.2%float)
  else (50, 200, 0.7%float).

(** Two unions of singletons with the same members. *)
Ltac same_keys :=
  rewrite !dom_insert_L, dom_empty_L; cbn [list_to_set foldr];
  apply set_eq; intros ?;
  rewrite !elem_of_union, !elem_of_singleton, !elem_of_empty; tauto.

(** Whether a character occurs in a string. *)
Fixpoint occurs (c : Ascii.ascii) (s : string) : bool :=
  match s with
  | EmptyString => false
  | String a s => bool_decide (a = c) || occurs c s
  end.

(** Case analysis on the four ports. *)

Ltac port_cases p :=
  let H := fresh in
  assert (H : p = 1 \/ p = 2 \/ p = 3 \/ p = 4) by lia;
  destruct H as [->|[->|[->| ->]]].

Ltac port_keys :=
  change (port_key 1) with "port1"; change (port_key 2) with "port2";
  change (port_key 3) with "port3"; change (port_key 4) with "port4".

(** Membership in [required_fields]. *)

Ltac in_fields :=
  unfold required_fields;
  repeat first [apply list_elem_of_here | apply list_elem_of_further].

(** * Properties *)

(** ** Queries on a table *)

Section QueryFacts.
Context {A : Type}.
Implicit Types (sel : A -> bool) (f : A -> A) (rows : list A).

Lemma first_update_first sel f rows :
  (forall r, sel (f r) = sel r) ->
  first sel (update_first sel f rows) = f <$> first sel rows.
Proof.
  intros Hkey. unfold first.
  induction rows as [|r rest IH]; simpl; [done|].
  destruct (sel r) eqn:Hr; simpl.
  - by rewrite Hkey, Hr.
  - by rewrite Hr.
Qed.

Lemma first_add_row sel r rows :
  first sel (add_row r rows) =
  match first sel rows with
  | Some r' => Some r'
  | None => if sel r then Some r else None
  end.
Proof.
  unfold first, add_row.
  induction rows as [|r' rest IH]; simpl; [done|].
  by destruct (sel r').
Qed.

Lemma first_delete_same sel rows : first sel (delete_where sel rows) = None.
Proof.
  unfold first, delete_where.
  induction rows as [|r rest IH]; simpl; [done|].
  destruct (sel r) eqn:Hr; simpl; [done|]. by rewrite Hr.
Qed.

Lemma first_delete_other sel sel' rows :
  (forall r, sel r = true -> sel' r = false) ->
  first sel' (delete_where sel rows) = first sel' rows.
Proof.
  intros Hdisj. unfold first, delete_where.
  induction rows as [|r rest IH]; simpl; [done|].
  destruct (sel r) eqn:Hr; simpl.
  - by rewrite (Hdisj r Hr).
  - by rewrite IH.
Qed.

Lemma first_delete_covering sel sel' rows :
  (forall r, sel' r = true -> sel r = true) ->
  first sel' (delete_where sel rows) = None.
Proof.
  intros Hcov. unfold first, delete_where.
  induction rows as [|r rest IH]; simpl; [done|].
  destruct (sel r) eqn:Hr; simpl; [done|].
  destruct (sel' r) eqn:Hr'; [|done].
  rewrite (Hcov r Hr') in Hr. discriminate.
Qed.

Lemma filter_delete_where sel rows : List.filter sel (delete_where sel rows) = [].
Proof.
  unfold delete_where.
  induction rows as [|r rest IH]; simpl; [done|].
  destruct (sel r) eqn:Hr; simpl; [done|]. by rewrite Hr.
Qed.

(** Row by row, [update_first] leaves a row alone or applies [f] to it. *)
Lemma update_first_lookup sel f rows (i : nat) r :
  rows !! i = Some r ->
  update_first sel f rows !! i = Some r \/
  (sel r = true /\ update_first sel f rows !! i = Some (f r)).
Proof.
  revert i. induction rows as [|r' rest IH]; intros i Hi; [done|].
  simpl. destruct (sel r') eqn:Hr'.
  - destruct i as [|i]; simpl in *; [|by left].
    injection Hi as ->. by right.
  - destruct i as [|i]; simpl in *; [by left|]. by apply IH.
Qed.

Lemma add_row_lookup r' rows (i : nat) r :
  rows !! i = Some r -> add_row r' rows !! i = Some r.
Proof. intros Hi. unfold add_row. by apply lookup_app_l_Some. Qed.
End QueryFacts.

(** ** The row an aggregation step works on *)

Lemma daily_key_bump today port e c p r :
  daily_key today port (daily_bump e c p r) = daily_key today port r.
Proof. done. Qed.

Lemma monthly_key_bump y m port e c r :
  monthly_key y m port (monthly_bump e c r) = monthly_key y m port r.
Proof. done. Qed.

(** A step on a key with a bucket commits the increments; on a key without
    one it raises and commits nothing. *)
Lemma update_daily_found now port power db r :
  first (daily_key now port) (daily_consumption db) = Some r ->
  update_daily_consumption now port power db =
  Ok (set_daily
        (update_first (daily_key now port)
           (daily_bump (calculate_energy_kwh power 1)
              (calculate_energy_kwh power 1 * get_electricity_rate db) power)
           (daily_consumption db)) db).
Proof. intros Hr. unfold update_daily_consumption. by rewrite Hr. Qed.

Lemma update_daily_missing now port power db :
  first (daily_key now port) (daily_consumption db) = None ->
  update_daily_consumption now port power db = Raise TypeError.
Proof. intros Hr. unfold update_daily_consumption. by rewrite Hr. Qed.

Lemma update_monthly_found now port e c db r :
  first (monthly_key (year now) (month now) port) (monthly_consumption db) = Some r ->
  update_monthly_consumption now port e c db =
  Ok (set_monthly
        (update_first (monthly_key (year now) (month now) port) (monthly_bump e c)
           (monthly_consumption db)) db).
Proof. intros Hr. unfold update_monthly_consumption. by rewrite Hr. Qed.

Lemma update_monthly_missing now port e c db :
  first (monthly_key (year now) (month now) port) (monthly_consumption db) = None ->
  update_monthly_consumption now port e c db = Raise TypeError.
Proof. intros Hr. unfold update_monthly_consumption. by rewrite Hr. Qed.

(** [ingest], update by update. *)
Lemma ingest_unfold now port v c p db :
  ingest now port v c p db =
  let db1 := update_realtime_data port v c p db in
  let energy := calculate_energy_kwh p 1 in
  let cost := (energy * get_electricity_rate db)%float in
  match first (daily_key now port) (daily_consumption db) with
  | None => Run db1 (Some TypeError)
  | Some _ =>
      let db2 :=
        set_daily (update_first (daily_key now port) (daily_bump energy cost p)
                     (daily_consumption db)) db1 in
      match first (monthly_key (year now) (month now) port)
              (monthly_consumption db) with
      | None => Run db2 (Some TypeError)
      | Some _ =>
          Run (set_monthly
                 (update_first (monthly_key (year now) (month now) port)
                    (monthly_bump energy cost) (monthly_consumption db)) db2) None
      end
  end.
Proof.
  unfold ingest, update_daily_consumption, update_monthly_consumption.
  change (daily_consumption (update_realtime_data port v c p db))
    with (daily_consumption db).
  change (get_electricity_rate (update_realtime_data port v c p db))
    with (get_electricity_rate db).
  destruct (first (daily_key now port) (daily_consumption db)); [|done].
  cbn [monthly_consumption set_daily update_realtime_data set_realtime].
  by destruct (first _ (monthly_consumption db)).
Qed.

(** The tables after an ingest, however far it got. *)
Lemma ingest_realtime now port v c p db :
  realtime_data (committed (ingest now port v c p db)) =
  add_row
    (RealtimeData.Build port v c p (if (0 <? p)%float then "online" else "offline"))
    (delete_where (realtime_port port) (realtime_data db)).
Proof.
  rewrite ingest_unfold. cbv zeta.
  destruct (first (daily_key now port) (daily_consumption db)); [|done].
  by destruct (first _ (monthly_consumption db)).
Qed.

Lemma ingest_settings now port v c p db :
  settings (committed (ingest now port v c p db)) = settings db.
Proof.
  rewrite ingest_unfold. cbv zeta.
  destruct (first (daily_key now port) (daily_consumption db)); [|done].
  by destruct (first _ (monthly_consumption db)).
Qed.

Lemma rate_ingest now port v c p db :
  get_electricity_rate (committed (ingest now port v c p db)) =
  get_electricity_rate db.
Proof. unfold get_electricity_rate. by rewrite ingest_settings. Qed.

Lemma ingest_daily_rows now port v c p db :
  daily_consumption (committed (ingest now port v c p db)) =
  match first (daily_key now port) (daily_consumption db) with
  | Some _ =>
      update_first (daily_key now port)
        (daily_bump (calculate_energy_kwh p 1)
           (calculate_energy_kwh p 1 * get_electricity_rate db) p)
        (daily_consumption db)
  | None => daily_consumption db
  end.
Proof.
  rewrite ingest_unfold. cbv zeta.
  destruct (first (daily_key now port) (daily_consumption db)); [|done].
  by destruct (first _ (monthly_consumption db)).
Qed.

Lemma ingest_monthly_rows now port v c p db :
  monthly_consumption (committed (ingest now port v c p db)) =
  match first (daily_key now port) (daily_consumption db),
        first (monthly_key (year now) (month now) port) (monthly_consumption db) with
  | Some _, Some _ =>
      update_first (monthly_key (year now) (month now) port)
        (monthly_bump (calculate_energy_kwh p 1)
           (calculate_energy_kwh p 1 * get_electricity_rate db))
        (monthly_consumption db)
  | _, _ => monthly_consumption db
  end.
Proof.
  rewrite ingest_unfold. cbv zeta.
  destruct (first (daily_key now port) (daily_consumption db)); [|done].
  by destruct (first _ (monthly_consumption db)).
Qed.

Lemma ingest_raised now port v c p db :
  raised (ingest now port v c p db) =
  match first (daily_key now port) (daily_consumption db),
        first (monthly_key (year now) (month now) port) (monthly_consumption db) with
  | Some _, Some _ => None
  | _, _ => Some TypeError
  end.
Proof.
  rewrite ingest_unfold. cbv zeta.
  destruct (first (daily_key now port) (daily_consumption db)); [|done].
  by destruct (first _ (monthly_consumption db)).
Qed.

(** The bucket of the sample's key after an ingest: the one stored before
    with the increments added, when the step was reached. *)
Lemma ingest_daily now port v c p db :
  first (daily_key now port) (daily_consumption (committed (ingest now port v c p db))) =
  daily_bump (calculate_energy_kwh p 1)
    (calculate_energy_kwh p 1 * get_electricity_rate db) p
  <$> first (daily_key now port) (daily_consumption db).
Proof.
  rewrite ingest_daily_rows.
  destruct (first (daily_key now port) (daily_consumption db)) as [r|] eqn:Hr.
  - rewrite first_update_first by apply daily_key_bump. by rewrite Hr.
  - by rewrite Hr.
Qed.


Lemma ingest_daily_row now port v c p db (i : nat) r :
  daily_consumption db !! i = Some r ->
  daily_consumption (committed (ingest now port v c p db)) !! i = Some r \/
  (daily_key now port r = true /\
   daily_consumption (committed (ingest now port v c p db)) !! i =
     Some (daily_bump (calculate_energy_kwh p 1)
             (calculate_energy_kwh p 1 * get_electricity_rate db) p r)).
Proof.
  intros Hr. rewrite ingest_daily_rows.
  destruct (first (daily_key now port) (daily_consumption db)); [|by left].
  destruct (update_first_lookup (daily_key now port)
    (daily_bump (calculate_energy_kwh p 1)
       (calculate_energy_kwh p 1 * get_electricity_rate db) p) _ i r Hr)
    as [?|[? ?]]; auto.
Qed.


(** ** Accumulation law *)



(** C1, the failing input: on the database as start-up leaves it (rate 8.0,
    no bucket) the aggregation of a 600 W sample does not add 0.01 and 0.08
    to a bucket: the daily step raises [TypeError] on the object it has
    just built, the route answers 500, only the snapshot is committed, and
    a second application ends the same way, with no bucket and so no total
    of 0.02 and 0.16. *)
Theorem C1_accumulation_stops_on_new_key :
  let now := Date 2024 2 10 in
  let body := sample_body (JInt 1) (JFloat 220) (JFloat 2.7) (JFloat 600) in
  let o1 := receive_esp_data not_a_numeral not_a_numeral now body fresh_db in
  let o2 := receive_esp_data not_a_numeral not_a_numeral now body (store o1) in
  get_electricity_rate fresh_db = 8.0%float /\
  calculate_energy_kwh 600 1 = 0.01%float /\
  (calculate_energy_kwh 600 1 * get_electricity_rate fresh_db)%float = 0.08%float /\
  update_daily_consumption now 1 600 fresh_db = Raise TypeError /\
  update_monthly_consumption now 1 0.01 0.08 fresh_db = Raise TypeError /\
  (reply o1 = Response (ErrorOf TypeError) 500 /\
   daily_consumption (store o1) = [] /\ monthly_consumption (store o1) = [] /\
   realtime_data (store o1) = [RealtimeData.Build 1 220 2.7 600 "online"] /\
   emitted o1 = []) /\
  (reply o2 = Response (ErrorOf TypeError) 500 /\
   daily_consumption (store o2) = [] /\ monthly_consumption (store o2) = [] /\
   emitted o2 = []).
Proof. vm_compute. repeat split; reflexivity. Qed.

(** ** Reading the dashboard *)

Lemma py_range_1_5 : py_range 1 5 = [1; 2; 3; 4].
Proof. reflexivity. Qed.

Lemma realtime_lookup now db p :
  1 <= p <= 4 ->
  realtime (get_dashboard_data now db) !! port_key p =
  Some (realtime_entry (first (realtime_port p) (realtime_data db))).
Proof.
  intros Hp. port_cases p;
    cbn -[realtime_entry first realtime_port]; unfold realtime_loop;
    rewrite py_range_1_5; simpl fold_left; port_keys; by simplify_map_eq.
Qed.

Lemma today_step_data db today acc port :
  today_data (today_step db today acc port) =
  <[port_key port := today_entry (first (daily_key today port) (daily_consumption db))]>
    (today_data acc).
Proof. unfold today_step. by destruct (first _ _). Qed.

Lemma today_fold_totals db today ports : forall acc,
  let found := omap (fun port => first (daily_key today port) (daily_consumption db))
                 ports in
  let final := fold_left (today_step db today) ports acc in
  total_today_energy final =
    fold_left py_add (PyFloat ∘ DailyConsumption.energy_kwh <$> found)
      (total_today_energy acc) /\
  total_today_cost final =
    fold_left py_add (PyFloat ∘ DailyConsumption.cost_bdt <$> found)
      (total_today_cost acc) /\
  total_today_runtime final =
    fold_left Z.add (DailyConsumption.runtime_minutes <$> found)
      (total_today_runtime acc).
Proof.
  induction ports as [|port ports IH]; intros acc; [done|].
  cbn [fold_left omap list_omap]. specialize (IH (today_step db today acc port)).
  cbv zeta in IH. destruct IH as (-> & -> & ->). unfold today_step.
  by destruct (first (daily_key today port) (daily_consumption db)).
Qed.

Lemma today_loop_data now db :
  today_data (today_loop db now) =
  <["port4" := today_entry (first (daily_key now 4) (daily_consumption db))]>
    (<["port3" := today_entry (first (daily_key now 3) (daily_consumption db))]>
      (<["port2" := today_entry (first (daily_key now 2) (daily_consumption db))]>
        (<["port1" := today_entry (first (daily_key now 1) (daily_consumption db))]>
           ∅))).
Proof.
  unfold today_loop. rewrite py_range_1_5. cbn [fold_left].
  by rewrite !today_step_data.
Qed.

Lemma today_loop_totals now db :
  total_today_energy (today_loop db now) =
    py_sum (PyFloat ∘ DailyConsumption.energy_kwh <$> todays_buckets now db) /\
  total_today_cost (today_loop db now) =
    py_sum (PyFloat ∘ DailyConsumption.cost_bdt <$> todays_buckets now db) /\
  total_today_runtime (today_loop db now) =
    fold_left Z.add (DailyConsumption.runtime_minutes <$> todays_buckets now db) 0.
Proof. apply today_fold_totals. Qed.

Lemma monthly_step_data db y m acc port :
  monthly_data (monthly_step db y m acc port) =
  <[port_key port :=
      monthly_entry (first (monthly_key y m port) (monthly_consumption db))]>
    (monthly_data acc).
Proof. unfold monthly_step. by destruct (first _ _). Qed.

Lemma monthly_fold_totals db y m ports : forall acc,
  let found := omap (fun port => first (monthly_key y m port) (monthly_consumption db))
                 ports in
  let final := fold_left (monthly_step db y m) ports acc in
  total_month_energy final =
    fold_left py_add (PyFloat ∘ MonthlyConsumption.energy_kwh <$> found)
      (total_month_energy acc) /\
  total_month_cost final =
    fold_left py_add (PyFloat ∘ MonthlyConsumption.cost_bdt <$> found)
      (total_month_cost acc).
Proof.
  induction ports as [|port ports IH]; intros acc; [done|].
  cbn [fold_left omap list_omap]. specialize (IH (monthly_step db y m acc port)).
  cbv zeta in IH. destruct IH as (-> & ->). unfold monthly_step.
  by destruct (first (monthly_key y m port) (monthly_consumption db)).
Qed.

Lemma monthly_loop_data now db :
  monthly_data (monthly_loop db (year now) (month now)) =
  <["port4" := monthly_entry (first (monthly_key (year now) (month now) 4)
                                (monthly_consumption db))]>
    (<["port3" := monthly_entry (first (monthly_key (year now) (month now) 3)
                                   (monthly_consumption db))]>
      (<["port2" := monthly_entry (first (monthly_key (year now) (month now) 2)
                                     (monthly_consumption db))]>
        (<["port1" := monthly_entry (first (monthly_key (year now) (month now) 1)
                                       (monthly_consumption db))]> ∅))).
Proof.
  unfold monthly_loop. rewrite py_range_1_5. cbn [fold_left].
  by rewrite !monthly_step_data.
Qed.

Lemma monthly_loop_totals now db :
  total_month_energy (monthly_loop db (year now) (month now)) =
    py_sum (PyFloat ∘ MonthlyConsumption.energy_kwh <$> months_buckets now db) /\
  total_month_cost (monthly_loop db (year now) (month now)) =
    py_sum (PyFloat ∘ MonthlyConsumption.cost_bdt <$> months_buckets now db).
Proof. apply monthly_fold_totals. Qed.

Lemma today_lookup now db p :
  1 <= p <= 4 ->
  today (get_dashboard_data now db) !! port_key p =
  Some (today_entry (first (daily_key now p) (daily_consumption db))).
Proof.
  intros Hp. unfold get_dashboard_data; cbn [today]. rewrite today_loop_data.
  port_cases p; port_keys; by simplify_map_eq.
Qed.

Lemma monthly_lookup now db p :
  1 <= p <= 4 ->
  monthly (get_dashboard_data now db) !! port_key p =
  Some (monthly_entry (first (monthly_key (year now) (month now) p)
                         (monthly_consumption db))).
Proof.
  intros Hp. unfold get_dashboard_data; cbn [monthly]. rewrite monthly_loop_data.
  port_cases p; port_keys; by simplify_map_eq.
Qed.

Lemma today_total now db :
  today (get_dashboard_data now db) !! "total" =
  Some (TodayView.Build
          (py_round2 (py_sum (PyFloat ∘ DailyConsumption.energy_kwh
                                <$> todays_buckets now db)))
          (py_round2 (py_sum (PyFloat ∘ DailyConsumption.cost_bdt
                                <$> todays_buckets now db)))
          (format_runtime
             (fold_left Z.add
                (DailyConsumption.runtime_minutes <$> todays_buckets now db) 0))).
Proof.
  unfold get_dashboard_data; cbn [today].
  destruct (today_loop_totals now db) as (-> & -> & ->).
  by rewrite lookup_insert_eq.
Qed.

Lemma monthly_total now db :
  monthly (get_dashboard_data now db) !! "total" =
  Some (MonthlyView.Build
          (py_round2 (py_sum (PyFloat ∘ MonthlyConsumption.energy_kwh
                                <$> months_buckets now db)))
          (py_round2 (py_sum (PyFloat ∘ MonthlyConsumption.cost_bdt
                                <$> months_buckets now db)))
          (Some (day now))).
Proof.
  unfold get_dashboard_data; cbn [monthly].
  destruct (monthly_loop_totals now db) as (-> & ->).
  by rewrite lookup_insert_eq.
Qed.

(** ** Realtime snapshot *)

Lemma realtime_port_disjoint p q r :
  p <> q -> realtime_port p r = true -> realtime_port q r = false.
Proof.
  unfold realtime_port. intros Hpq Hp. apply Z.eqb_eq in Hp. apply Z.eqb_neq. lia.
Qed.

(** C4: after a sample for a port in 1..4 has been ingested, the dashboard
    shows exactly that voltage, current and power for the port, with status
    online exactly when the power is above zero, and shows for every other
    port what it showed before. *)
Theorem C4_ingest_then_project now now' port v c p db :
  1 <= port <= 4 ->
  let before := get_dashboard_data now db in
  let after := get_dashboard_data now' (committed (ingest now port v c p db)) in
  realtime after !! port_key port =
    Some (RealtimeView.Build (PyFloat v) (PyFloat c) (PyFloat p)
            (if (0 <? p)%float then "online" else "offline")) /\
  Forall (fun q => q <> port ->
            realtime after !! port_key q = realtime before !! port_key q)
    (py_range 1 5).
Proof.
  intros Hport before after. split.
  - unfold after. rewrite realtime_lookup by done. rewrite ingest_realtime.
    rewrite first_add_row, first_delete_same. unfold realtime_port; simpl.
    by rewrite Z.eqb_refl.
  - apply Forall_forall. intros q Hq Hne.
    assert (1 <= q <= 4) as Hq' by (apply elem_of_seqZ in Hq; lia).
    unfold after, before. rewrite !realtime_lookup by done. rewrite ingest_realtime.
    rewrite first_add_row.
    rewrite first_delete_other by (intros r; apply realtime_port_disjoint; done).
    destruct (first (realtime_port q) (realtime_data db)); [done|].
    unfold realtime_port at 1; simpl.
    by destruct (Z.eqb_spec port q); [congruence|].
Qed.

(** ** Administrative reset *)

Lemma daily_key_dated today port r :
  daily_key today port r = true -> dated today r = true.
Proof. unfold daily_key, dated. by intros (? & ?)%andb_true_iff. Qed.

Lemma todays_buckets_reset now db :
  todays_buckets now (store (reset_daily_data now db)) = [].
Proof.
  unfold todays_buckets, reset_daily_data; cbn [store set_daily daily_consumption].
  rewrite py_range_1_5. simpl omap.
  by rewrite !(first_delete_covering (dated now))
    by (intros r; apply daily_key_dated).
Qed.

(** C3: the reset removes every daily bucket dated today, for any port, so
    today's energy, cost and runtime of the four ports and their total read
    as zero; the rows of other days, the monthly table and the monthly part
    of the dashboard are exactly what they were. *)
Theorem C3_reset_today now db :
  let o := reset_daily_data now db in
  let view := get_dashboard_data now (store o) in
  daily_consumption (store o) =
    List.filter (fun r => negb (dated now r)) (daily_consumption db) /\
  List.filter (dated now) (daily_consumption (store o)) = [] /\
  Forall (fun port =>
            today view !! port_key port =
            Some (TodayView.Build (PyInt 0) (PyInt 0) "0h 0m")) (py_range 1 5) /\
  today view !! "total" = Some (TodayView.Build (PyInt 0) (PyInt 0) "0h 0m") /\
  monthly_consumption (store o) = monthly_consumption db /\
  monthly view = monthly (get_dashboard_data now db) /\
  realtime_data (store o) = realtime_data db /\
  settings (store o) = settings db /\
  reply o = Response Success 200 /\ emitted o = [view].
Proof.
  intros o view. split; [reflexivity|]. split.
  { apply (filter_delete_where (dated now)). }
  split.
  { apply Forall_forall. intros port Hport.
    assert (1 <= port <= 4) as Hport' by (apply elem_of_seqZ in Hport; lia).
    unfold view. rewrite today_lookup by done.
    unfold o, reset_daily_data; cbn [store set_daily daily_consumption].
    by rewrite (first_delete_covering (dated now))
      by (intros r; apply daily_key_dated). }
  split.
  { unfold view, o. by rewrite today_total, todays_buckets_reset. }
  repeat split; reflexivity.
Qed.

(** ** Totals, days and runtime text *)

Lemma month_length_bounds y m : 28 <= month_length y m <= 31.
Proof.
  unfold month_length.
  destruct (m =? 2); [destruct (is_leap y); lia|].
  destruct ((m =? 4) || (m =? 6) || (m =? 9) || (m =? 11)); lia.
Qed.

Lemma add_days_within (n : nat) y m d :
  d + Z.of_nat n <= month_length y m ->
  add_days n (Date y m d) = Date y m (d + Z.of_nat n).
Proof.
  unfold add_days. induction n as [|n IH]; intros Hn.
  - simpl. f_equal. lia.
  - rewrite Nat.iter_succ, IH by lia. unfold next_day; cbn [year month day].
    replace (d + Z.of_nat n <? month_length y m) with true
      by (symmetry; apply Z.ltb_lt; lia).
    f_equal. lia.
Qed.

Lemma add_days_split (a b : nat) d : add_days (a + b) d = add_days b (add_days a d).
Proof.
  unfold add_days. rewrite Nat.add_comm. apply Nat.iter_add.
Qed.

(** The unused value is the date of the last day of the current month. *)
Lemma last_day_of_month_spec now :
  1 <= month now <= 12 ->
  last_day_of_month now =
  Date (year now) (month now) (month_length (year now) (month now)).
Proof.
  destruct now as [y m d]; cbn [year month day]. intros Hm.
  unfold last_day_of_month, replace_day; cbn [year month day].
  pose proof (month_length_bounds y m) as HL.
  set (L := month_length y m) in *.
  replace 32%nat with (Z.to_nat (L - 1) + (1 + Z.to_nat (32 - L)))%nat by lia.
  rewrite add_days_split, add_days_within by (fold L; lia).
  replace (1 + Z.of_nat (Z.to_nat (L - 1))) with L by lia.
  rewrite add_days_split.
  change (add_days 1 (Date y m L)) with (next_day (Date y m L)).
  unfold next_day; cbn [year month day]. fold L. rewrite Z.ltb_irrefl.
  destruct (m <? 12) eqn:Hlt.
  - rewrite add_days_within
      by (pose proof (month_length_bounds y (m + 1)); lia).
    cbn [year month day]. unfold prev_day; cbn [year month day].
    replace (1 <? m + 1) with true by (symmetry; apply Z.ltb_lt; lia).
    rewrite Z.ltb_irrefl. replace (m + 1 - 1) with m by lia. reflexivity.
  - rewrite add_days_within
      by (pose proof (month_length_bounds (y + 1) 1); lia).
    cbn [year month day]. unfold prev_day; cbn [year month day].
    rewrite !Z.ltb_irrefl.
    assert (m = 12) as -> by (apply Z.ltb_ge in Hlt; lia).
    unfold L. f_equal. lia.
Qed.

(** C9: the ['days'] entry of the monthly total is the day of the month of
    the current date; the last day of the month is computed as well but is
    not what is reported (on 10 February 2024 the entry is 10, the month has
    29 days). *)
Theorem C9_days_is_day_of_month now db :
  MonthlyView.days <$> monthly (get_dashboard_data now db) !! "total" =
    Some (Some (day now)) /\
  MonthlyView.days <$> monthly (get_dashboard_data (Date 2024 2 10) db) !! "total" =
    Some (Some 10) /\
  last_day_of_month (Date 2024 2 10) = Date 2024 2 29.
Proof.
  split; [by rewrite monthly_total|].
  split; [by rewrite monthly_total|reflexivity].
Qed.

(** C10: each cross-port total shown for today and for the month is the sum
    of the stored, unrounded bucket values, rounded once to two decimals.  It
    can differ from the sum of the rounded per-port figures: with 0.004 kWh
    on each of the four ports every port shows 0.0 while the total shows
    0.02 (and for the cost 0.03 each against 0.13). *)
Theorem C10_totals_round_the_sum now db :
  let view := get_dashboard_data now db in
  let small := get_dashboard_data now (four_small_buckets now) in
  (TodayView.energy <$> today view !! "total" =
     Some (py_round2 (py_sum (PyFloat ∘ DailyConsumption.energy_kwh
                                <$> todays_buckets now db))) /\
   TodayView.cost <$> today view !! "total" =
     Some (py_round2 (py_sum (PyFloat ∘ DailyConsumption.cost_bdt
                                <$> todays_buckets now db))) /\
   MonthlyView.energy <$> monthly view !! "total" =
     Some (py_round2 (py_sum (PyFloat ∘ MonthlyConsumption.energy_kwh
                                <$> months_buckets now db))) /\
   MonthlyView.cost <$> monthly view !! "total" =
     Some (py_round2 (py_sum (PyFloat ∘ MonthlyConsumption.cost_bdt
                                <$> months_buckets now db)))) /\
  (TodayView.energy <$> today small !! "total" = Some (PyFloat 0.02) /\
   py_sum (shown_today TodayView.energy small) = PyFloat 0 /\
   TodayView.cost <$> today small !! "total" = Some (PyFloat 0.13) /\
   py_sum (shown_today TodayView.cost small) = PyFloat 0.12 /\
   MonthlyView.energy <$> monthly small !! "total" = Some (PyFloat 0.02) /\
   py_sum (shown_monthly MonthlyView.energy small) = PyFloat 0).
Proof.
  intros view small. split.
  - unfold view. by rewrite today_total, monthly_total.
  - destruct now as [y m d]. unfold small. repeat split.
    all: rewrite ?today_total, ?monthly_total;
      unfold shown_today, shown_monthly, todays_buckets, months_buckets;
      rewrite !py_range_1_5; cbn [omap list_omap];
      rewrite ?today_lookup, ?monthly_lookup by lia.
    all: unfold four_small_buckets; rewrite py_range_1_5;
      cbn [fmap list_fmap daily_consumption monthly_consumption];
      unfold first, daily_key, monthly_key; cbn [List.find DailyConsumption.date_
        DailyConsumption.port MonthlyConsumption.year_ MonthlyConsumption.month_
        MonthlyConsumption.port year month];
      rewrite ?bool_decide_eq_true_2, ?Z.eqb_refl by done;
      cbn [andb Z.eqb Pos.eqb option_fmap option_map fmap list_fmap mbind
           option_bind today_entry monthly_entry];
      vm_compute; reflexivity.
Qed.

(** C8: for a minute count [m >= 0] the runtime text is the decimal of
    [m div 60], then ["h "], the decimal of [m mod 60] and ["m"], with
    [m = 60 * (m div 60) + m mod 60] and [0 <= m mod 60 < 60]; 125 minutes
    read ["2h 5m"] and 0 minutes ["0h 0m"]. *)
Theorem C8_format_runtime (m : Z) :
  0 <= m ->
  format_runtime m = pretty (m / 60) +:+ "h " +:+ pretty (m mod 60) +:+ "m" /\
  m = 60 * (m / 60) + m mod 60 /\ 0 <= m / 60 /\ 0 <= m mod 60 < 60 /\
  format_runtime 125 = "2h 5m" /\ format_runtime 0 = "0h 0m".
Proof.
  intros Hm. split; [reflexivity|].
  split; [apply Z.div_mod; lia|].
  split; [apply Z.div_pos; lia|].
  split; [apply Z.mod_pos_bound; lia|].
  split; vm_compute; reflexivity.
Qed.

Lemma C8_format_runtime_witness :
  format_runtime 125 = pretty (125 / 60) +:+ "h " +:+ pretty (125 mod 60) +:+ "m" /\
  format_runtime 125 = "2h 5m".
Proof.
  pose proof (C8_format_runtime 125 ltac:(lia)) as (H1 & _ & _ & _ & H2 & _).
  exact (conj H1 H2).
Defined.

(** ** The ingest route *)

Section RouteFacts.
Variable int_of_str : string -> option Z.
Variable float_of_str : string -> option float.

Implicit Types (data : gmap string json) (db : database) (now : date).

Local Abbreviation receive := (receive_esp_data int_of_str float_of_str).

Lemma fields_present data :
  forallb (fun field => bool_decide (is_Some (data !! field))) required_fields = true <->
  Forall (fun field => is_Some (data !! field)) required_fields.
Proof.
  rewrite forallb_forall, Forall_forall. split; intros H field Hin.
  - apply list_elem_of_In, H in Hin. by apply bool_decide_eq_true in Hin.
  - apply bool_decide_eq_true, H. by apply list_elem_of_In.
Qed.

Lemma receive_missing now data db field :
  field ∈ required_fields -> data !! field = None ->
  receive now data db = Outcome (Response (Error "Missing required fields") 400) db [].
Proof.
  intros Hin Hnone. unfold receive, receive_esp_data.
  destruct (forallb _ required_fields) eqn:Hall; [|done].
  apply fields_present in Hall. rewrite Forall_forall in Hall.
  destruct (Hall field Hin) as [v Hv]. congruence.
Qed.

Lemma receive_present now data db pv vv cv wv :
  data !! "port" = Some pv -> data !! "voltage" = Some vv ->
  data !! "current" = Some cv -> data !! "power" = Some wv ->
  receive now data db =
  match
    (port <- py_int int_of_str pv ;;
     if (port <? 1) || (port >? 4)
     then Ok (Outcome (Response (Error "Invalid port number") 400) db [])
     else
       voltage <- py_float float_of_str vv ;;
       current <- py_float float_of_str cv ;;
       power <- py_float float_of_str wv ;;
       let updates := ingest now port voltage current power db in
       match raised updates with
       | Some e => Ok (Outcome (Response (ErrorOf e) 500) (committed updates) [])
       | None =>
           Ok (Outcome (Response Success 200) (committed updates)
                 [get_dashboard_data now (committed updates)])
       end)%result
  with
  | Ok o => o
  | Raise e => Outcome (Response (ErrorOf e) 500) db []
  end.
Proof.
  intros Hp Hv Hc Hw. unfold receive, receive_esp_data.
  replace (forallb _ required_fields) with true.
  2:{ symmetry. apply fields_present. unfold required_fields.
      repeat constructor; by eexists. }
  unfold item. by rewrite Hp, Hv, Hc, Hw.
Qed.

(** A body whose four fields convert, with the port in 1..4, is ingested as
    far as the updates get; the fresh dashboard is pushed when none of them
    raised. *)
Lemma receive_valid now data db pv vv cv wv port voltage current power :
  data !! "port" = Some pv -> data !! "voltage" = Some vv ->
  data !! "current" = Some cv -> data !! "power" = Some wv ->
  py_int int_of_str pv = Ok port -> 1 <= port <= 4 ->
  py_float float_of_str vv = Ok voltage -> py_float float_of_str cv = Ok current ->
  py_float float_of_str wv = Ok power ->
  let updates := ingest now port voltage current power db in
  receive now data db =
  match raised updates with
  | Some e => Outcome (Response (ErrorOf e) 500) (committed updates) []
  | None =>
      Outcome (Response Success 200) (committed updates)
        [get_dashboard_data now (committed updates)]
  end.
Proof.
  intros Hp Hv Hc Hw Hport Hrange Hvolt Hcur Hpow updates.
  rewrite (receive_present now data db pv vv cv wv) by done.
  rewrite Hport. simpl.
  replace ((port <? 1) || (port >? 4)) with false by (symmetry; apply orb_false_iff; lia).
  rewrite Hvolt, Hcur, Hpow. simpl. fold updates. by destruct (raised updates).
Qed.

(** C5: a request whose port converts to a number outside 1..4 is answered
    with a 400 error; the database (all four tables) is unchanged and no
    dashboard update is emitted. *)
Theorem C5_port_out_of_range now data db pv port :
  data !! "port" = Some pv ->
  py_int int_of_str pv = Ok port ->
  port < 1 \/ 4 < port ->
  let o := receive_esp_data int_of_str float_of_str now data db in
  status_code (reply o) = 400 /\
  (body (reply o) = Error "Invalid port number" \/
   body (reply o) = Error "Missing required fields") /\
  store o = db /\ emitted o = [].
Proof.
  intros Hp Hport Hrange o. unfold o. fold receive.
  destruct (data !! "voltage") as [vv|] eqn:Hv;
    [|rewrite (receive_missing now data db "voltage") by (done || in_fields);
      simpl; tauto].
  destruct (data !! "current") as [cv|] eqn:Hc;
    [|rewrite (receive_missing now data db "current") by (done || in_fields);
      simpl; tauto].
  destruct (data !! "power") as [wv|] eqn:Hw;
    [|rewrite (receive_missing now data db "power") by (done || in_fields);
      simpl; tauto].
  rewrite (receive_present now data db pv vv cv wv) by done.
  rewrite Hport. simpl.
  replace ((port <? 1) || (port >? 4)) with true by (symmetry; apply orb_true_iff; lia).
  simpl; tauto.
Qed.

(** C6 (as amended): a request that lacks a required field is answered with
    the 400 error "Missing required fields", the database unchanged and
    nothing emitted.  When all four fields are present and one of them does
    not convert ([int] on the port, or, the port being in 1..4, [float] on
    voltage, current or power), the database is unchanged and nothing is
    emitted as well, but the answer is the 500 error carrying the exception. *)
Theorem C6_missing_or_unconvertible now data db :
  let o := receive_esp_data int_of_str float_of_str now data db in
  ((exists field, field ∈ required_fields /\ data !! field = None) ->
   reply o = Response (Error "Missing required fields") 400 /\
   store o = db /\ emitted o = []) /\
  (forall pv vv cv wv,
     data !! "port" = Some pv -> data !! "voltage" = Some vv ->
     data !! "current" = Some cv -> data !! "power" = Some wv ->
     (forall e, py_int int_of_str pv = Raise e ->
        reply o = Response (ErrorOf e) 500 /\ store o = db /\ emitted o = []) /\
     (forall port e,
        py_int int_of_str pv = Ok port -> 1 <= port <= 4 ->
        (_ <- py_float float_of_str vv ;; _ <- py_float float_of_str cv ;;
         py_float float_of_str wv)%result = Raise e ->
        reply o = Response (ErrorOf e) 500 /\ store o = db /\ emitted o = [])).
Proof.
  intros o. unfold o. fold receive. split.
  - intros (field & Hin & Hnone). by rewrite (receive_missing now data db field).
  - intros pv vv cv wv Hp Hv Hc Hw.
    rewrite (receive_present now data db pv vv cv wv) by done. split.
    + intros e ->. done.
    + intros port e -> Hrange Hraise. simpl.
      replace ((port <? 1) || (port >? 4)) with false
        by (symmetry; apply orb_false_iff; lia).
      destruct (py_float float_of_str vv) as [voltage|e1]; simpl in *;
        [|by injection Hraise as ->].
      destruct (py_float float_of_str cv) as [current|e2]; simpl in *;
        [|by injection Hraise as ->].
      destruct (py_float float_of_str wv) as [power|e3]; simpl in *;
        [done|by injection Hraise as ->].
Qed.
End RouteFacts.

Lemma C5_port_out_of_range_witness :
  let zero := receive_esp_data not_a_numeral not_a_numeral (Date 2024 2 10)
                (sample_body (JInt 0) (JFloat 220) (JFloat 2.7) (JFloat 600)) empty_db in
  let five := receive_esp_data not_a_numeral not_a_numeral (Date 2024 2 10)
                (sample_body (JInt 5) (JFloat 220) (JFloat 2.7) (JFloat 600)) empty_db in
  (status_code (reply zero) = 400 /\ store zero = empty_db /\ emitted zero = []) /\
  (status_code (reply five) = 400 /\ store five = empty_db /\ emitted five = []).
Proof.
  intros zero five. split.
  - pose proof (C5_port_out_of_range not_a_numeral not_a_numeral (Date 2024 2 10)
      (sample_body (JInt 0) (JFloat 220) (JFloat 2.7) (JFloat 600)) empty_db
      (JInt 0) 0 eq_refl eq_refl ltac:(lia)) as (H1 & _ & H2 & H3).
    exact (conj H1 (conj H2 H3)).
  - pose proof (C5_port_out_of_range not_a_numeral not_a_numeral (Date 2024 2 10)
      (sample_body (JInt 5) (JFloat 220) (JFloat 2.7) (JFloat 600)) empty_db
      (JInt 5) 5 eq_refl eq_refl ltac:(lia)) as (H1 & _ & H2 & H3).
    exact (conj H1 (conj H2 H3)).
Defined.

(** The voltage ["abc"] in an otherwise valid body: the answer is a 500
    server error, not a 400. *)
Lemma C6_non_numeric_is_server_error :
  receive_esp_data not_a_numeral not_a_numeral (Date 2024 2 10)
    (sample_body (JInt 1) (JStr "abc") (JFloat 2.7) (JFloat 600)) empty_db =
  Outcome (Response (ErrorOf ValueError) 500) empty_db [].
Proof. vm_compute. reflexivity. Qed.

(** ** Binary64 arithmetic

    What the aggregation needs of float comparison, addition, multiplication
    and division, derived from the specification of the binary64
    operations. *)

Module Binary64.

Lemma Prim2SF_zero : Prim2SF 0 = S754_zero false.
Proof. vm_compute. reflexivity. Qed.

(** A float that compares equal to zero is one of the two zeros. *)
Lemma eqb_zero_inv x : (x =? 0)%float = true -> exists s, Prim2SF x = S754_zero s.
Proof.
  rewrite FloatAxioms.eqb_spec, Prim2SF_zero.
  destruct (Prim2SF x) as [s|s| |s m e]; simpl; try discriminate.
  - by exists s.
  - by destruct s.
  - by destruct s.
Qed.

Lemma eqb_zero_intro x s : Prim2SF x = S754_zero s -> (x =? 0)%float = true.
Proof. intros H. by rewrite FloatAxioms.eqb_spec, Prim2SF_zero, H. Qed.

Lemma SFeqb_refl x : x <> S754_nan -> SFeqb x x = true.
Proof.
  destruct x as [s|s| |s m e]; intros Hnan; try done; unfold SFeqb; simpl.
  - by destruct s.
  - destruct s; rewrite Z.compare_refl, Pos.compare_cont_refl; done.
Qed.

Lemma is_nan_false x : is_nan x = false -> Prim2SF x <> S754_nan.
Proof.
  unfold is_nan. rewrite FloatAxioms.eqb_spec. intros H Hnan. rewrite Hnan in H. done.
Qed.

(** A finite float is a zero or has a mantissa and an exponent. *)
Lemma is_finite_inv x :
  is_finite x = true ->
  (exists s, Prim2SF x = S754_zero s) \/ (exists s m e, Prim2SF x = S754_finite s m e).
Proof.
  unfold is_finite. intros H. apply negb_true_iff, orb_false_iff in H as [Hnan Hinf].
  unfold Prim2SF. rewrite Hnan, Hinf.
  destruct (is_zero x); [left; by eexists|].
  destruct (Z.frexp x) as [r ex].
  destruct (shr_fexp _ _ _ _ _) as [mrs e'].
  destruct (shr_m mrs); [left|right|left]; by repeat eexists.
Qed.

Lemma zero_times_finite z rate s :
  Prim2SF z = S754_zero s -> is_finite rate = true ->
  exists s', Prim2SF (z * rate) = S754_zero s'.
Proof.
  intros Hz Hrate. rewrite FloatAxioms.mul_spec, Hz.
  destruct (is_finite_inv rate Hrate) as [[s' ->]|(s' & m & e & ->)]; simpl; by eexists.
Qed.

(** Adding a zero leaves a float numerically unchanged. *)
Lemma add_zero_eqb x z s :
  Prim2SF z = S754_zero s -> is_nan x = false -> (x + z =? x)%float = true.
Proof.
  intros Hz Hnan%is_nan_false. rewrite FloatAxioms.eqb_spec, FloatAxioms.add_spec, Hz.
  destruct (Prim2SF x) as [sx|sx| |sx m e] eqn:Hx; try done.
  - by destruct sx, s.
  - by destruct sx.
  - unfold SF64add, SFadd. by apply SFeqb_refl.
Qed.

(** The binary64 format: 53-bit mantissas, exponents from -1074 to 971. *)
Lemma fexp_eq e : fexp prec emax e = Z.max (e - 53) (-1074).
Proof. reflexivity. Qed.

Lemma digits2_size m : digits2_pos m = Pos.size m.
Proof. induction m; simpl; congruence. Qed.

Lemma digits2_log2 m : Zpos (digits2_pos m) = Z.log2 (Zpos m) + 1.
Proof.
  rewrite digits2_size. destruct m; simpl; try reflexivity; rewrite Pos2Z.inj_succ; lia.
Qed.

Lemma bit_length_bounds n : 0 < n -> 2 ^ (bit_length n - 1) <= n < 2 ^ bit_length n.
Proof.
  intros Hn. unfold bit_length. replace (Z.log2 n + 1 - 1) with (Z.log2 n) by lia.
  apply Z.log2_spec in Hn. replace (Z.log2 n + 1) with (Z.succ (Z.log2 n)) by lia. lia.
Qed.

Lemma bit_length_pos n : 0 < n -> 1 <= bit_length n.
Proof. intros Hn. unfold bit_length. pose proof (Z.log2_nonneg n). lia. Qed.

Lemma bit_length_le_mono a b : 0 < a -> a <= b -> bit_length a <= bit_length b.
Proof. intros Ha Hab. unfold bit_length. pose proof (Z.log2_le_mono a b Hab). lia. Qed.

Lemma bit_length_mul_pow2 a k :
  0 < a -> 0 <= k -> bit_length (a * 2 ^ k) = bit_length a + k.
Proof. intros Ha Hk. unfold bit_length. rewrite Z.log2_mul_pow2 by lia. lia. Qed.

Lemma bit_length_unique n d : 2 ^ (d - 1) <= n < 2 ^ d -> 1 <= d -> bit_length n = d.
Proof.
  intros Hb Hd. unfold bit_length.
  rewrite (Z.log2_unique n (d - 1)); [lia|lia|].
  replace (Z.succ (d - 1)) with d by lia. done.
Qed.

Lemma canonical_inv m e :
  canonical_mantissa prec emax m e = true ->
  -1074 <= e /\ bit_length (Zpos m) <= 53 /\ (e = -1074 \/ bit_length (Zpos m) = 53).
Proof.
  unfold canonical_mantissa. rewrite fexp_eq, digits2_log2. fold (bit_length (Zpos m)).
  intros H%Z.eqb_eq. lia.
Qed.

Lemma ulps_pos m e : -1074 <= e -> 0 < ulps m e.
Proof. intros. unfold ulps. pose proof (Z.pow_pos_nonneg 2 (e + 1074)). lia. Qed.

Lemma bit_length_ulps m e :
  -1074 <= e -> bit_length (ulps m e) = bit_length (Zpos m) + (e + 1074).
Proof. intros. unfold ulps. apply bit_length_mul_pow2; lia. Qed.

(** For canonical pairs the order of the values is the lexicographic order
    of (exponent, mantissa). *)
Lemma canonical_order m1 e1 m2 e2 :
  canonical_mantissa prec emax m1 e1 = true ->
  canonical_mantissa prec emax m2 e2 = true ->
  ulps m1 e1 <= ulps m2 e2 ->
  e1 < e2 \/ (e1 = e2 /\ (m1 <= m2)%positive).
Proof.
  intros (He1 & Hd1 & Hc1)%canonical_inv (He2 & Hd2 & Hc2)%canonical_inv Hle.
  destruct (Z_lt_le_dec e1 e2) as [|Hge]; [by left|right].
  assert (Hdig : bit_length (ulps m1 e1) <= bit_length (ulps m2 e2))
    by (apply bit_length_le_mono; [by apply ulps_pos|done]).
  rewrite !bit_length_ulps in Hdig by done.
  assert (e1 = e2) as -> by lia. split; [done|].
  unfold ulps in Hle. pose proof (Z.pow_pos_nonneg 2 (e2 + 1074)).
  apply Z.mul_le_mono_pos_r in Hle; lia.
Qed.

(** ** Shifting right with round and sticky bits *)

Lemma shr_1_m mrs : 0 <= shr_m mrs -> shr_m (shr_1 mrs) = shr_m mrs / 2.
Proof.
  destruct mrs as [m r s]; simpl. intros Hm. rewrite <- Z.div2_div.
  destruct m as [|[p|p|]|p]; try reflexivity; lia.
Qed.

Lemma shr_1_flags mrs :
  0 <= shr_m mrs ->
  shr_r (shr_1 mrs) = Z.odd (shr_m mrs) /\
  shr_s (shr_1 mrs) = shr_r mrs || shr_s mrs.
Proof.
  destruct mrs as [m r s]; simpl. intros Hm.
  destruct m as [|[p|p|]|p]; try (split; reflexivity); lia.
Qed.

Lemma shr_inv_step m0 j mrs :
  0 <= m0 -> 0 <= j -> shr_inv m0 j mrs -> shr_inv m0 (j + 1) (shr_1 mrs).
Proof.
  intros Hm0 Hj [Hm Hex].
  assert (Hpow : 0 < 2 ^ j) by (apply Z.pow_pos_nonneg; lia).
  assert (Hnn : 0 <= shr_m mrs) by (rewrite Hm; apply Z.div_pos; lia).
  split.
  - rewrite shr_1_m, Hm by done. rewrite Z.pow_add_r, Z.pow_1_r by lia.
    rewrite Z.div_div by lia. reflexivity.
  - intros Hmod. destruct (shr_1_flags mrs Hnn) as [-> ->].
    rewrite Z.pow_add_r, Z.pow_1_r in Hmod by lia.
    apply Z.mod_divide in Hmod; [|lia]. destruct Hmod as [c Hc].
    assert (Hmod' : m0 mod 2 ^ j = 0).
    { apply Z.mod_divide; [lia|]. exists (c * 2). lia. }
    destruct (Hex Hmod') as [-> ->]. split; [|done].
    rewrite Hm. replace m0 with (c * 2 * 2 ^ j) by lia.
    rewrite Z.div_mul by lia. rewrite Z.mul_comm. apply Z.odd_even.
Qed.

Lemma shr_inv_iter m0 k : forall j mrs,
  0 <= m0 -> 0 <= j -> shr_inv m0 j mrs ->
  shr_inv m0 (j + Zpos k) (SpecFloat.iter_pos shr_1 k mrs).
Proof.
  induction k as [k IH|k IH|]; intros j mrs Hm0 Hj Hinv; simpl.
  - replace (j + Zpos k~1) with (j + 1 + Zpos k + Zpos k) by lia.
    apply IH; [done|lia|]. apply IH; [done|lia|]. by apply shr_inv_step.
  - replace (j + Zpos k~0) with (j + Zpos k + Zpos k) by lia.
    apply IH; [done|lia|]. by apply IH.
  - by apply shr_inv_step.
Qed.

Lemma shr_exact_spec m e n :
  0 <= m -> 0 <= n ->
  exists mrs, shr (Build_shr_record m false false) e n = (mrs, e + n) /\
              shr_inv m n mrs.
Proof.
  intros Hm Hn.
  assert (Hinv0 : shr_inv m 0 (Build_shr_record m false false)).
  { split; simpl; [by rewrite Z.div_1_r|done]. }
  destruct n as [|k|k]; [| |lia].
  - eexists; split; [simpl; by rewrite Z.add_0_r|done].
  - eexists; split; [reflexivity|]. by apply (shr_inv_iter m k 0).
Qed.

Lemma round_choice mrs :
  let m1 := round_nearest_even (shr_m mrs) (loc_of_shr_record mrs) in
  (m1 = shr_m mrs \/ m1 = shr_m mrs + 1) /\
  (shr_r mrs = false /\ shr_s mrs = false -> m1 = shr_m mrs).
Proof.
  destruct mrs as [m [] []]; simpl; (split; [|intros [? ?]; done]);
    try destruct (Z.even m); auto.
Qed.

Lemma bit_length_div_pow2 m n :
  0 < m -> 0 <= n -> n < bit_length m ->
  bit_length (m / 2 ^ n) = bit_length m - n /\ 0 < m / 2 ^ n.
Proof.
  intros Hm Hn Hlt. pose proof (bit_length_bounds m Hm) as [Hlo Hhi].
  assert (Hpow : 0 < 2 ^ n) by (apply Z.pow_pos_nonneg; lia).
  assert (Hq : 2 ^ (bit_length m - n - 1) <= m / 2 ^ n < 2 ^ (bit_length m - n)).
  { split.
    - apply Z.div_le_lower_bound; [lia|].
      rewrite <- Z.pow_add_r by lia.
      by replace (n + (bit_length m - n - 1)) with (bit_length m - 1) by lia.
    - apply Z.div_lt_upper_bound; [lia|].
      rewrite <- Z.pow_add_r by lia.
      by replace (n + (bit_length m - n)) with (bit_length m) by lia. }
  split; [apply bit_length_unique; [done|lia]|].
  pose proof (Z.pow_pos_nonneg 2 (bit_length m - n - 1)). lia.
Qed.

(** ** Rounding an aligned mantissa *)

Lemma bit_length_succ_cases q :
  0 < q ->
  bit_length (q + 1) = bit_length q \/
  (bit_length (q + 1) = bit_length q + 1 /\ q + 1 = 2 ^ bit_length q).
Proof.
  intros Hq. pose proof (bit_length_bounds q Hq) as [Hlo Hhi].
  pose proof (bit_length_pos q Hq).
  destruct (Z_lt_le_dec (q + 1) (2 ^ bit_length q)) as [Hlt|Hge].
  - left. apply bit_length_unique; lia.
  - right. assert (q + 1 = 2 ^ bit_length q) as Heq by lia. split; [|done].
    rewrite Heq. unfold bit_length at 1. rewrite Z.log2_pow2 by lia. reflexivity.
Qed.

Lemma binary_round_aux_char s mz ez :
  -1074 <= ez ->
  ez <= fexp prec emax (bit_length (Zpos mz) + ez) ->
  let t := fexp prec emax (bit_length (Zpos mz) + ez) in
  let q := Zpos mz / 2 ^ (t - ez) in
  exists m2 e2 m1,
    canonical_mantissa prec emax m2 e2 = true /\
    binary_round_aux prec emax s (Zpos mz) ez loc_Exact =
      (if e2 <=? 971 then S754_finite s m2 e2 else S754_infinity s) /\
    (m1 = q \/ m1 = q + 1) /\
    (Zpos mz mod 2 ^ (t - ez) = 0 -> m1 = q) /\
    ulps m2 e2 = m1 * 2 ^ (t + 1074).
Proof.
  intros Hez Ht t q.
  assert (Htdef : t = Z.max (bit_length (Zpos mz) + ez - 53) (-1074))
    by (unfold t; apply fexp_eq).
  pose proof (bit_length_pos (Zpos mz) ltac:(lia)) as Hdz.
  set (n := t - ez). assert (Hn : 0 <= n) by (unfold n, t; lia).
  assert (Hnd : n < bit_length (Zpos mz)) by lia.
  destruct (bit_length_div_pow2 (Zpos mz) n ltac:(lia) Hn Hnd) as [Hdq Hqpos].
  fold n in q. fold q in Hdq, Hqpos.
  unfold binary_round_aux, shr_fexp.
  change (Zdigits2 (Zpos mz)) with (Zpos (digits2_pos mz)).
  rewrite digits2_log2. fold (bit_length (Zpos mz)). fold t. fold n.
  cbn [shr_record_of_loc].
  destruct (shr_exact_spec (Zpos mz) ez n ltac:(lia) Hn) as (mrs' & -> & [Hm' Hex']).
  replace (ez + n) with t by (unfold n; lia).
  fold q in Hm'.
  destruct (round_choice mrs') as [Hm1 Hm1ex].
  set (m1 := round_nearest_even (shr_m mrs') (loc_of_shr_record mrs')) in *.
  rewrite Hm' in Hm1, Hm1ex.
  assert (Hm1pos : 0 < m1) by lia.
  assert (Hdm1 : bit_length m1 = bit_length q \/
                 (bit_length m1 = bit_length q + 1 /\ m1 = 2 ^ bit_length q)).
  { destruct Hm1 as [->| ->]; [by left|]. by apply bit_length_succ_cases. }
  destruct m1 as [|pm1|pm1] eqn:Hpm1; [lia| |lia].
  change (Zdigits2 (Zpos pm1)) with (Zpos (digits2_pos pm1)).
  rewrite digits2_log2. fold (bit_length (Zpos pm1)).
  set (n2 := fexp prec emax (bit_length (Zpos pm1) + t) - t).
  assert (Hn2def : n2 = Z.max (bit_length (Zpos pm1) + t - 53) (-1074) - t)
    by (unfold n2; by rewrite fexp_eq).
  assert (Hn2 : n2 = 0 \/ (n2 = 1 /\ Zpos pm1 = 2 ^ bit_length q)) by lia.
  destruct (shr_exact_spec (Zpos pm1) t n2 ltac:(lia) ltac:(lia))
    as (mrs'' & -> & [Hm'' _]).
  assert (Hexact : Zpos pm1 = shr_m mrs'' * 2 ^ n2 /\ 0 < shr_m mrs'' /\
                   bit_length (shr_m mrs'') = bit_length (Zpos pm1) - n2).
  { rewrite Hm''. destruct Hn2 as [->|[-> Hpow]].
    - rewrite Z.pow_0_r, Z.div_1_r. lia.
    - assert (1 <= bit_length q) by (apply bit_length_pos; lia).
      assert (Hd1 : bit_length (Zpos pm1) = bit_length q + 1).
      { destruct Hdm1 as [Hd|[Hd _]]; [|done]. rewrite Hd in Hn2def. lia. }
      rewrite Hd1, Hpow. clear Hn2def Hdm1 Hd1 Hpow.
      set (d := bit_length q - 1). replace (bit_length q) with (d + 1) by (unfold d; lia).
      assert (0 <= d) by (unfold d; lia).
      rewrite Z.pow_add_r, !Z.pow_1_r by lia. rewrite Z.div_mul by lia.
      pose proof (Z.pow_pos_nonneg 2 d).
      split; [lia|]. split; [lia|].
      unfold bit_length. rewrite Z.log2_pow2 by lia. lia. }
  destruct Hexact as (Hval & Hpos'' & Hdig'').
  destruct (shr_m mrs'') as [|m2|m2] eqn:Hm2; [lia| |lia].
  exists m2, (t + n2), (Zpos pm1).
  split.
  { unfold canonical_mantissa. rewrite digits2_log2. fold (bit_length (Zpos m2)).
    apply Z.eqb_eq. rewrite Hdig''.
    replace (bit_length (Zpos pm1) - n2 + (t + n2))
      with (bit_length (Zpos pm1) + t) by lia.
    unfold n2. lia. }
  split; [reflexivity|].
  split; [done|]. split.
  { intros Hmod. apply Hm1ex. by apply Hex'. }
  unfold ulps. rewrite Hval.
  replace (t + n2 + 1074) with (n2 + (t + 1074)) by lia.
  rewrite Z.pow_add_r by lia. lia.
Qed.

Lemma iter_xO p d : Zpos (Pos.iter xO p d) = Zpos p * 2 ^ Zpos d.
Proof.
  induction d as [|d IH] using Pos.peano_ind.
  - simpl. lia.
  - rewrite Pos.iter_succ, Pos2Z.inj_xO, IH, Pos2Z.inj_succ, Z.pow_succ_r by lia. lia.
Qed.

Lemma shl_align_spec p e e' :
  snd (shl_align p e e') = Z.min e e' /\
  Zpos (fst (shl_align p e e')) = Zpos p * 2 ^ (e - Z.min e e').
Proof.
  unfold shl_align. destruct (e' - e) as [|d|d] eqn:Hd; simpl.
  - replace (Z.min e e') with e by lia. rewrite Z.sub_diag. simpl. lia.
  - replace (Z.min e e') with e by lia. rewrite Z.sub_diag. simpl. lia.
  - replace (Z.min e e') with e' by lia. split; [done|].
    rewrite iter_xO. f_equal. f_equal. lia.
Qed.

(** The result of rounding [p * 2^e] to the format, before the overflow
    test: a canonical pair whose value is the multiple of [2^k] just below
    or just above, and the number itself when that is a multiple. *)
Lemma binary_round_char s p e :
  -1074 <= e ->
  let N := ulps p e in
  let k := Z.max (bit_length N - 53) 0 in
  exists m2 e2,
    canonical_mantissa prec emax m2 e2 = true /\
    binary_round prec emax s p e =
      (if e2 <=? 971 then S754_finite s m2 e2 else S754_infinity s) /\
    (ulps m2 e2 = N / 2 ^ k * 2 ^ k \/ ulps m2 e2 = (N / 2 ^ k + 1) * 2 ^ k) /\
    (N mod 2 ^ k = 0 -> ulps m2 e2 = N).
Proof.
  intros He N k. unfold binary_round.
  rewrite digits2_log2. fold (bit_length (Zpos p)).
  set (t := fexp prec emax (bit_length (Zpos p) + e)).
  assert (Htdef : t = Z.max (bit_length (Zpos p) + e - 53) (-1074))
    by (unfold t; apply fexp_eq).
  destruct (shl_align_spec p e t) as [Hez Hmz].
  destruct (shl_align p e t) as [mz ez]. cbn [fst snd] in Hez, Hmz.
  assert (Hez' : -1074 <= ez /\ ez <= e /\ ez <= t) by lia.
  assert (Hdz : bit_length (Zpos mz) + ez = bit_length (Zpos p) + e).
  { rewrite Hmz, <- Hez. rewrite bit_length_mul_pow2 by lia. lia. }
  assert (Ht' : fexp prec emax (bit_length (Zpos mz) + ez) = t) by (by rewrite Hdz).
  destruct (binary_round_aux_char s mz ez ltac:(lia) ltac:(rewrite Ht'; lia))
    as (m2 & e2 & m1 & Hcan & Hres & Hm1 & Hm1ex & Hval).
  rewrite Ht' in Hm1, Hm1ex, Hval.
  assert (HN : N = Zpos mz * 2 ^ (ez + 1074)).
  { unfold N, ulps. rewrite Hmz, <- Hez. rewrite <- Z.mul_assoc, <- Z.pow_add_r by lia.
    f_equal. f_equal. lia. }
  assert (Hk : k = t + 1074).
  { unfold k, N. rewrite bit_length_ulps by done. lia. }
  assert (Hpk : 2 ^ k = 2 ^ (t - ez) * 2 ^ (ez + 1074)).
  { rewrite Hk, <- Z.pow_add_r by lia. f_equal. lia. }
  assert (Hp1 : 0 < 2 ^ (t - ez)) by (apply Z.pow_pos_nonneg; lia).
  assert (Hp2 : 0 < 2 ^ (ez + 1074)) by (apply Z.pow_pos_nonneg; lia).
  assert (Hq : N / 2 ^ k = Zpos mz / 2 ^ (t - ez)).
  { rewrite HN, Hpk. apply Z.div_mul_cancel_r; lia. }
  assert (Hr : N mod 2 ^ k = Zpos mz mod 2 ^ (t - ez) * 2 ^ (ez + 1074)).
  { rewrite HN, Hpk. apply Z.mul_mod_distr_r; lia. }
  exists m2, e2. split; [done|]. split; [done|].
  rewrite Hq, Hval, <- Hk. split.
  - destruct Hm1 as [->| ->]; auto.
  - intros Hmod. rewrite Hr in Hmod.
    assert (Hmod' : Zpos mz mod 2 ^ (t - ez) = 0) by nia.
    rewrite (Hm1ex Hmod'), <- Hq.
    pose proof (Z.div_mod N (2 ^ k) ltac:(rewrite Hpk; lia)) as Hdm.
    rewrite Hr, Hmod' in Hdm. lia.
Qed.

Lemma round_up_bound mx ex N :
  canonical_mantissa prec emax mx ex = true ->
  0 < N -> ulps mx ex <= N ->
  ulps mx ex <= N / 2 ^ Z.max (bit_length N - 53) 0 * 2 ^ Z.max (bit_length N - 53) 0.
Proof.
  intros (Hex & Hdm & Hc)%canonical_inv HN Hle.
  set (k := Z.max (bit_length N - 53) 0).
  destruct (Z.eq_dec k 0) as [->|Hk].
  { by rewrite Z.pow_0_r, Z.div_1_r, Z.mul_1_r. }
  assert (Hkd : k = bit_length N - 53 /\ 0 < k) by lia. destruct Hkd as [Hkd Hkpos].
  assert (Hpk : 0 < 2 ^ k) by (apply Z.pow_pos_nonneg; lia).
  pose proof (bit_length_bounds N HN) as [HNlo _].
  replace (bit_length N - 1) with (52 + k) in HNlo by lia.
  rewrite Z.pow_add_r in HNlo by lia.
  assert (Hq : 2 ^ 52 <= N / 2 ^ k) by (apply Z.div_le_lower_bound; lia).
  pose proof (ulps_pos mx ex Hex) as HX.
  pose proof (bit_length_bounds _ HX) as [_ HXhi].
  rewrite bit_length_ulps in HXhi by done.
  assert (Hdle : bit_length (ulps mx ex) <= bit_length N)
    by (by apply bit_length_le_mono).
  rewrite bit_length_ulps in Hdle by done.
  destruct (Z_lt_le_dec (ex + 1074) k) as [Hlt|Hge].
  - assert (2 ^ (bit_length (Zpos mx) + (ex + 1074)) <= 2 ^ 52 * 2 ^ k).
    { rewrite <- Z.pow_add_r by lia. apply Z.pow_le_mono_r; lia. }
    nia.
  - assert (ex + 1074 = k) as Hek by lia.
    unfold ulps in *. rewrite Hek in *.
    assert (Zpos mx <= N / 2 ^ k) by (apply Z.div_le_lower_bound; lia).
    nia.
Qed.

Lemma round_down_bound mx ex N V :
  canonical_mantissa prec emax mx ex = true ->
  0 < N -> N <= ulps mx ex ->
  (V = N / 2 ^ Z.max (bit_length N - 53) 0 * 2 ^ Z.max (bit_length N - 53) 0 \/
   V = (N / 2 ^ Z.max (bit_length N - 53) 0 + 1) * 2 ^ Z.max (bit_length N - 53) 0) ->
  (N mod 2 ^ Z.max (bit_length N - 53) 0 = 0 -> V = N) ->
  V <= ulps mx ex.
Proof.
  intros (Hex & Hdm & Hc)%canonical_inv HN Hle.
  set (k := Z.max (bit_length N - 53) 0). intros HV Hexact.
  assert (Hpk : 0 < 2 ^ k) by (apply Z.pow_pos_nonneg; lia).
  pose proof (Z.div_mod N (2 ^ k) ltac:(lia)) as Hdm'.
  pose proof (Z.mod_pos_bound N (2 ^ k) Hpk) as Hrb.
  destruct (Z.eq_dec (N mod 2 ^ k) 0) as [Hz|Hnz]; [rewrite (Hexact Hz); done|].
  assert (Hk0 : k <> 0).
  { intros Hk0. rewrite Hk0, Z.pow_0_r, Z.mod_1_r in Hnz. done. }
  assert (Hkd : k = bit_length N - 53 /\ 0 < k) by lia. destruct Hkd as [Hkd Hkpos].
  assert (Hdle : bit_length N <= bit_length (ulps mx ex))
    by (by apply bit_length_le_mono).
  rewrite bit_length_ulps in Hdle by done.
  assert (Hkx : k <= ex + 1074) by lia.
  assert (Hmult : ulps mx ex = Zpos mx * 2 ^ (ex + 1074 - k) * 2 ^ k).
  { unfold ulps. rewrite <- Z.mul_assoc, <- Z.pow_add_r by lia. f_equal. f_equal. lia. }
  set (c := Zpos mx * 2 ^ (ex + 1074 - k)) in *.
  assert (N / 2 ^ k < c) by nia.
  destruct HV as [->| ->]; nia.
Qed.

(** ** Addition never goes below an operand when the other is not negative *)

Lemma bounded_inv m e :
  bounded prec emax m e = true ->
  canonical_mantissa prec emax m e = true /\ e <= 971.
Proof. unfold bounded. intros [? ?%Z.leb_le]%andb_true_iff. by split. Qed.

Lemma SFleb_finite_pos mx ex m2 e2 :
  ex < e2 \/ (ex = e2 /\ (mx <= m2)%positive) ->
  SFleb (S754_finite false mx ex) (S754_finite false m2 e2) = true.
Proof.
  unfold SFleb, SFcompare. intros [Hlt|[-> Hle]].
  - by rewrite (proj2 (Z.compare_lt_iff ex e2) Hlt).
  - rewrite Z.compare_refl. change (Pos.compare_cont Eq mx m2) with (mx ?= m2)%positive.
    by destruct (mx ?= m2)%positive eqn:Hc.
Qed.

Lemma SFleb_finite_neg mx ex m2 e2 :
  e2 < ex \/ (e2 = ex /\ (m2 <= mx)%positive) ->
  SFleb (S754_finite true mx ex) (S754_finite true m2 e2) = true.
Proof.
  unfold SFleb, SFcompare. intros [Hlt|[-> Hle]].
  - by rewrite (proj2 (Z.compare_gt_iff ex e2) Hlt).
  - rewrite Z.compare_refl. change (Pos.compare_cont Eq mx m2) with (mx ?= m2)%positive.
    destruct (Pos.compare_spec mx m2) as [Hc|Hc|Hc]; try done. lia.
Qed.

Lemma SFadd_finite_le sx mx ex my ey :
  bounded prec emax mx ex = true -> bounded prec emax my ey = true ->
  SFleb (S754_finite sx mx ex)
    (SFadd prec emax (S754_finite sx mx ex) (S754_finite false my ey)) = true.
Proof.
  intros [Hcx Hex]%bounded_inv [Hcy Hey]%bounded_inv.
  pose proof (canonical_inv _ _ Hcx) as (Hex' & _ & _).
  pose proof (canonical_inv _ _ Hcy) as (Hey' & _ & _).
  unfold SFadd. set (ez := Z.min ex ey).
  destruct (shl_align_spec mx ex ez) as [_ HA].
  destruct (shl_align_spec my ey ez) as [_ HB].
  replace (Z.min ex ez) with ez in HA by (unfold ez; lia).
  replace (Z.min ey ez) with ez in HB by (unfold ez; lia).
  set (A := Zpos (fst (shl_align mx ex ez))) in *.
  set (B := Zpos (fst (shl_align my ey ez))) in *.
  assert (Hez : -1074 <= ez) by (unfold ez; lia).
  assert (Hp : 0 < 2 ^ (ez + 1074)) by (apply Z.pow_pos_nonneg; lia).
  assert (HX : ulps mx ex = A * 2 ^ (ez + 1074)).
  { unfold ulps. rewrite HA, <- Z.mul_assoc, <- Z.pow_add_r by (unfold ez; lia).
    f_equal. f_equal. lia. }
  assert (HApos : 0 < A) by done. assert (HBpos : 0 < B) by done.
  clearbody A B.
  destruct sx; cbn [cond_Zopp].
  - (* a negative operand *)
    destruct (- A + B) as [|pm|pm] eqn:HM; cbn [binary_normalize].
    + reflexivity.
    + destruct (binary_round_char false pm ez Hez) as (m2 & e2 & _ & -> & _).
      by destruct (e2 <=? 971).
    + destruct (binary_round_char true pm ez Hez) as (m2 & e2 & Hc2 & -> & HV & Hexact).
      assert (HN : ulps pm ez <= ulps mx ex) by (unfold ulps at 1; nia).
      pose proof (round_down_bound mx ex (ulps pm ez) (ulps m2 e2) Hcx
                    (ulps_pos pm ez Hez) HN HV Hexact) as Hle.
      pose proof (canonical_order m2 e2 mx ex Hc2 Hcx Hle) as Hord.
      replace (e2 <=? 971) with true by (symmetry; apply Z.leb_le; lia).
      by apply SFleb_finite_neg.
  - (* a positive operand *)
    destruct (A + B) as [|pm|pm] eqn:HM; [lia| |lia]. cbn [binary_normalize].
    destruct (binary_round_char false pm ez Hez) as (m2 & e2 & Hc2 & -> & HV & _).
    destruct (e2 <=? 971); [|reflexivity].
    assert (HN : ulps mx ex <= ulps pm ez) by (unfold ulps at 2; nia).
    pose proof (round_up_bound mx ex (ulps pm ez) Hcx (ulps_pos pm ez Hez) HN) as Hle.
    apply SFleb_finite_pos. apply canonical_order; [done|done|].
    set (k := Z.max (bit_length (ulps pm ez) - 53) 0) in *.
    assert (0 < 2 ^ k) by (apply Z.pow_pos_nonneg; lia).
    destruct HV as [->| ->]; nia.
Qed.

Lemma leb_zero_nonneg y : (0 <=? y)%float = SFnonneg (Prim2SF y).
Proof.
  rewrite FloatAxioms.leb_spec. change (Prim2SF 0) with (S754_zero false).
  by destruct (Prim2SF y) as [s|[]| |[] m e].
Qed.

Lemma SFleb_refl x : x <> S754_nan -> SFleb x x = true.
Proof.
  destruct x as [s|s| |s m e]; intros Hnan; try done; unfold SFleb; simpl.
  - by destruct s.
  - destruct s; rewrite Z.compare_refl, Pos.compare_cont_refl; done.
Qed.

(** Adding a float that is not negative to a finite float does not
    decrease it. *)
Lemma add_nonneg_le x y :
  is_finite x = true -> (0 <=? y)%float = true -> (x <=? x + y)%float = true.
Proof.
  intros Hx Hy. rewrite leb_zero_nonneg in Hy.
  rewrite FloatAxioms.leb_spec, FloatAxioms.add_spec.
  pose proof (Prim2SF_valid x) as Hvx. pose proof (Prim2SF_valid y) as Hvy.
  destruct (is_finite_inv x Hx) as [[sx Hsx]|(sx & mx & ex & Hsx)];
    rewrite Hsx in *;
    destruct (Prim2SF y) as [sy|[]| |[] my ey]; try done.
  - by destruct sx, sy.
  - by apply SFleb_refl.
  - by apply SFadd_finite_le.
Qed.

(** ** Products and quotients of floats that are not negative *)

Lemma shr_m_nonneg_iter k : forall mrs,
  0 <= shr_m mrs -> 0 <= shr_m (SpecFloat.iter_pos shr_1 k mrs).
Proof.
  assert (Hstep : forall mrs, 0 <= shr_m mrs -> 0 <= shr_m (shr_1 mrs)).
  { intros mrs H. rewrite shr_1_m by done. apply Z.div_pos; lia. }
  induction k as [k IH|k IH|]; intros mrs Hm; simpl; auto.
Qed.

Lemma shr_nonneg mrs e n : 0 <= shr_m mrs -> 0 <= shr_m (fst (shr mrs e n)).
Proof.
  intros Hm. unfold shr. destruct n; simpl; try done. by apply shr_m_nonneg_iter.
Qed.

Lemma binary_round_aux_nonneg m e l :
  0 <= m -> SFnonneg (binary_round_aux prec emax false m e l) = true.
Proof.
  intros Hm. unfold binary_round_aux, shr_fexp.
  set (n := fexp prec emax (Zdigits2 m + e) - e).
  pose proof (shr_nonneg (shr_record_of_loc m l) e n) as H1.
  destruct (shr (shr_record_of_loc m l) e n) as [mrs' e']. cbn [fst] in H1.
  assert (Hm' : 0 <= shr_m mrs') by (apply H1; by destruct l as [|[]]).
  destruct (round_choice mrs') as [Hm1 _].
  set (m1 := round_nearest_even (shr_m mrs') (loc_of_shr_record mrs')) in *.
  set (n2 := fexp prec emax (Zdigits2 m1 + e') - e').
  pose proof (shr_nonneg (shr_record_of_loc m1 loc_Exact) e' n2) as H2.
  destruct (shr (shr_record_of_loc m1 loc_Exact) e' n2) as [mrs'' e'']. cbn [fst] in H2.
  assert (Hm'' : 0 <= shr_m mrs'') by (apply H2; simpl; lia).
  destruct (shr_m mrs''); [done| |lia]. by destruct (e'' <=? emax - prec).
Qed.

Lemma SFmul_nonneg x y :
  SFnonneg x = true -> SFnonneg y = true ->
  (forall s, y <> S754_infinity s) ->
  (forall s, x = S754_infinity false -> y <> S754_zero s) ->
  SFnonneg (SFmul prec emax x y) = true.
Proof.
  intros Hx Hy Hfin Hinf.
  destruct x as [sx|[]| |[] mx ex]; try done;
    destruct y as [sy|[]| |[] my ey]; try done; simpl.
  - by destruct (Hfin false).
  - by destruct (Hinf sy).
  - apply binary_round_aux_nonneg. lia.
Qed.





End Binary64.

Import Binary64.

(** ** Energy of a reading *)

Lemma Prim2SF_one : Prim2SF (float_of_Z 1) = S754_finite false 4503599627370496 (-52).
Proof. vm_compute. reflexivity. Qed.

Lemma Prim2SF_60000 :
  Prim2SF (float_of_Z (1000 * 60)) = S754_finite false 8246337208320000 (-37).
Proof. vm_compute. reflexivity. Qed.

(** The energy of a zero power reading is a zero. *)
Lemma energy_of_zero power :
  (power =? 0)%float = true ->
  exists s, Prim2SF (calculate_energy_kwh power 1) = S754_zero s.
Proof.
  intros [s Hs]%eqb_zero_inv. unfold calculate_energy_kwh.
  rewrite FloatAxioms.div_spec, FloatAxioms.mul_spec, Hs, Prim2SF_one, Prim2SF_60000.
  simpl. by eexists.
Qed.


(** ** Runtime *)

(** C7 (as amended): on a key whose daily bucket exists, an aggregation
    step adds the elapsed minute to the runtime of the bucket exactly when
    the power is above zero.  With power zero the runtime is unchanged and
    energy and cost are still incremented: the energy increment is zero, and
    the cost increment is zero when the rate is finite, so both stay
    numerically what they were. *)
Theorem C7_runtime_only_when_powered now port power db old :
  first (daily_key now port) (daily_consumption db) = Some old ->
  let energy := calculate_energy_kwh power 1 in
  let cost := (energy * get_electricity_rate db)%float in
  exists db' new,
    update_daily_consumption now port power db = Ok db' /\
    first (daily_key now port) (daily_consumption db') = Some new /\
    DailyConsumption.runtime_minutes new =
      DailyConsumption.runtime_minutes old + (if (0 <? power)%float then 1 else 0) /\
    DailyConsumption.energy_kwh new = (DailyConsumption.energy_kwh old + energy)%float /\
    DailyConsumption.cost_bdt new = (DailyConsumption.cost_bdt old + cost)%float /\
    ((power =? 0)%float = true ->
     DailyConsumption.runtime_minutes new = DailyConsumption.runtime_minutes old /\
     (energy =? 0)%float = true /\
     (is_finite (get_electricity_rate db) = true -> (cost =? 0)%float = true) /\
     (is_nan (DailyConsumption.energy_kwh old) = false ->
      (DailyConsumption.energy_kwh new =? DailyConsumption.energy_kwh old)%float
        = true) /\
     (is_finite (get_electricity_rate db) = true ->
      is_nan (DailyConsumption.cost_bdt old) = false ->
      (DailyConsumption.cost_bdt new =? DailyConsumption.cost_bdt old)%float = true)).
Proof.
  intros Hold energy cost.
  rewrite (update_daily_found now port power db old Hold). fold energy cost.
  eexists _, (daily_bump energy cost power old). split; [done|]. split.
  { cbn [daily_consumption set_daily].
    rewrite first_update_first by apply daily_key_bump. by rewrite Hold. }
  cbn [daily_bump DailyConsumption.runtime_minutes
    DailyConsumption.energy_kwh DailyConsumption.cost_bdt].
  split. { destruct (0 <? power)%float; lia. }
  split; [done|]. split; [done|].
  intros Hzero.
  destruct (energy_of_zero power Hzero) as [s Hs]. fold energy in Hs.
  assert (Hlt : (0 <? power)%float = false).
  { destruct (eqb_zero_inv power Hzero) as [s' Hs'].
    rewrite FloatAxioms.ltb_spec, Prim2SF_zero, Hs'. done. }
  rewrite Hlt. split; [done|].
  split; [by apply (eqb_zero_intro _ s)|].
  split.
  { intros Hrate. destruct (zero_times_finite energy _ s Hs Hrate) as [s' Hs'].
    by apply (eqb_zero_intro _ s'). }
  split.
  { intros Hnan. by apply (add_zero_eqb _ _ s). }
  intros Hrate Hnan.
  destruct (zero_times_finite energy _ s Hs Hrate) as [s' Hs'].
  by apply (add_zero_eqb _ _ s').
Qed.

(** The rate route accepts the rate [Infinity]; a reading with power zero
    then has the energy increment zero and the cost increment [0 * inf],
    which is not a number and not zero. *)
Lemma C7_infinite_rate_cost_increment :
  let now := Date 2024 2 10 in
  let o := update_electricity_rate not_a_numeral
             (<["rate" := JFloat PrimFloat.infinity]> ∅) (one_bucket now) in
  let energy := calculate_energy_kwh 0 1 in
  let cost := (energy * get_electricity_rate (store o))%float in
  reply o = Response Success 200 /\
  get_electricity_rate (store o) = PrimFloat.infinity /\
  daily_bucket now 1 (store o) = Some (DailyConsumption.Build now 1 0.01 0.08 1) /\
  (energy =? 0)%float = true /\
  is_nan cost = true /\ (cost =? 0)%float = false.
Proof. vm_compute. repeat split; reflexivity. Qed.

(** ** Buckets only accumulate *)



(** ** Instances of the conditional statements *)


Lemma C4_ingest_then_project_witness :
  realtime (get_dashboard_data (Date 2024 2 11)
              (committed (ingest (Date 2024 2 10) 2 220 2.7 600 empty_db)))
    !! port_key 2 =
  Some (RealtimeView.Build (PyFloat 220) (PyFloat 2.7) (PyFloat 600) "online").
Proof.
  exact (proj1 (C4_ingest_then_project (Date 2024 2 10) (Date 2024 2 11) 2
                  220%float 2.7%float 600%float empty_db ltac:(lia))).
Defined.

Lemma C6_missing_or_unconvertible_witness :
  let missing := receive_esp_data not_a_numeral not_a_numeral (Date 2024 2 10)
                   (<["port" := JInt 1]> (<["voltage" := JFloat 220]> ∅)) empty_db in
  let null := receive_esp_data not_a_numeral not_a_numeral (Date 2024 2 10)
                (sample_body (JInt 1) (JFloat 220) JNull (JFloat 600)) empty_db in
  (reply missing = Response (Error "Missing required fields") 400 /\
   store missing = empty_db /\ emitted missing = []) /\
  (reply null = Response (ErrorOf TypeError) 500 /\
   store null = empty_db /\ emitted null = []).
Proof.
  intros missing null. split.
  - refine (proj1 (C6_missing_or_unconvertible not_a_numeral not_a_numeral
      (Date 2024 2 10) (<["port" := JInt 1]> (<["voltage" := JFloat 220]> ∅))
      empty_db) _).
    exists "power". split; [|reflexivity].
    unfold required_fields. do 3 apply list_elem_of_further. apply list_elem_of_here.
  - exact (proj2 (proj2 (C6_missing_or_unconvertible not_a_numeral not_a_numeral
      (Date 2024 2 10) (sample_body (JInt 1) (JFloat 220) JNull (JFloat 600))
      empty_db) (JInt 1) (JFloat 220) JNull (JFloat 600)
      eq_refl eq_refl eq_refl eq_refl) 1 TypeError eq_refl ltac:(lia) eq_refl).
Defined.

Lemma C7_runtime_only_when_powered_witness :
  let now := Date 2024 2 10 in
  exists db' new,
    update_daily_consumption now 1 0 (one_bucket now) = Ok db' /\
    first (daily_key now 1) (daily_consumption db') = Some new /\
    DailyConsumption.runtime_minutes new = 1 /\
    (DailyConsumption.energy_kwh new =? 0.01)%float = true.
Proof.
  intros now.
  destruct (C7_runtime_only_when_powered now 1 0%float (one_bucket now)
              (DailyConsumption.Build now 1 0.01 0.08 1) eq_refl)
    as (db' & new & Hok & Hnew & _ & _ & _ & Hzero).
  destruct (Hzero eq_refl) as (Hrun & _ & _ & Henergy & _).
  exists db', new. exact (conj Hok (conj Hnew (conj Hrun (Henergy eq_refl)))).
Defined.

(** * Further properties *)

(** ** Counting rows *)

Section CountFacts.
Context {A : Type}.
Implicit Types (sel : A -> bool) (f : A -> A) (rows : list A).

Lemma first_update_other sel sel' f rows :
  (forall r, sel' (f r) = sel' r) ->
  (forall r, sel r = true -> sel' r = false) ->
  first sel' (update_first sel f rows) = first sel' rows.
Proof.
  intros Hkey Hdisj. unfold first.
  induction rows as [|r rest IH]; simpl; [done|].
  destruct (sel r) eqn:Hr; simpl.
  - by rewrite Hkey, (Hdisj r Hr).
  - by rewrite IH.
Qed.

Lemma count_update_first sel sel' f rows :
  (forall r, sel' (f r) = sel' r) ->
  count sel' (update_first sel f rows) = count sel' rows.
Proof.
  intros Hkey. unfold count.
  induction rows as [|r rest IH]; simpl; [done|].
  destruct (sel r); simpl.
  - rewrite Hkey. by destruct (sel' r).
  - destruct (sel' r); simpl; by rewrite IH.
Qed.

Lemma count_add_row sel r rows :
  count sel (add_row r rows) = (count sel rows + if sel r then 1 else 0)%nat.
Proof.
  unfold count, add_row. rewrite List.filter_app, length_app. simpl.
  by destruct (sel r).
Qed.

Lemma count_delete_same sel rows : count sel (delete_where sel rows) = 0%nat.
Proof. unfold count. by rewrite filter_delete_where. Qed.

Lemma count_delete_other sel sel' rows :
  (forall r, sel r = true -> sel' r = false) ->
  count sel' (delete_where sel rows) = count sel' rows.
Proof.
  intros Hdisj. unfold count, delete_where.
  induction rows as [|r rest IH]; simpl; [done|].
  destruct (sel r) eqn:Hr; simpl.
  - by rewrite (Hdisj r Hr).
  - destruct (sel' r); simpl; by rewrite IH.
Qed.

Lemma count_delete_le sel sel' rows :
  (count sel' (delete_where sel rows) <= count sel' rows)%nat.
Proof.
  unfold count, delete_where.
  induction rows as [|r rest IH]; simpl; [done|].
  destruct (sel r) eqn:Hr; simpl; destruct (sel' r) eqn:Hr'; simpl;
    rewrite ?Hr'; simpl; lia.
Qed.

Lemma first_None_count sel rows : first sel rows = None <-> count sel rows = 0%nat.
Proof.
  unfold first, count. induction rows as [|r rest IH]; simpl; [done|].
  destruct (sel r); simpl; [split; done|done].
Qed.

Lemma first_Some_count sel rows r : first sel rows = Some r -> (1 <= count sel rows)%nat.
Proof.
  intros Hr. destruct (count sel rows) eqn:Hc; [|lia].
  apply first_None_count in Hc. congruence.
Qed.
End CountFacts.

(** ** Rate store *)

Lemma rate_key_set_value r s : rate_key (set_value r s) = rate_key s.
Proof. done. Qed.

Lemma rate_key_default r : rate_key (Settings.Build "electricity_rate_bdt" r) = true.
Proof. done. Qed.

(** X1: start-up stores the default rate only when no rate setting exists:
    the rate in effect is the same before and after (a customised rate
    survives a restart), a rate setting exists afterwards, running it again
    changes nothing, no second rate row is ever added, and the other three
    tables are left alone. *)
Theorem X1_init_database_keeps_rate db :
  let db' := init_database db in
  get_electricity_rate db' = get_electricity_rate db /\
  is_Some (first rate_key (settings db')) /\
  init_database db' = db' /\
  count rate_key (settings db') = Nat.max 1 (count rate_key (settings db)) /\
  realtime_data db' = realtime_data db /\
  daily_consumption db' = daily_consumption db /\
  monthly_consumption db' = monthly_consumption db.
Proof.
  intros db'. unfold db', init_database, get_electricity_rate.
  destruct (first rate_key (settings db)) as [s|] eqn:Hs.
  - rewrite Hs. pose proof (first_Some_count _ _ _ Hs).
    repeat split; try done. lia.
  - cbn [settings set_settings]. rewrite first_add_row, Hs, rate_key_default.
    rewrite count_add_row, rate_key_default.
    apply first_None_count in Hs. rewrite Hs. repeat split; done.
Qed.

Section RateFacts.
Variable float_of_str : string -> option float.
Implicit Types (data : gmap string json) (db : database) (now : date).

Local Abbreviation update_rate := (update_electricity_rate float_of_str).

Lemma update_rate_ok data db v r :
  data !! "rate" = Some v -> py_float float_of_str v = Ok r ->
  update_rate data db =
  Outcome (Response Success 200)
    (match first rate_key (settings db) with
     | Some _ => set_settings (update_first rate_key (set_value r) (settings db)) db
     | None =>
         set_settings
           (add_row (Settings.Build "electricity_rate_bdt" r) (settings db)) db
     end) [].
Proof.
  intros Hv Hr. unfold update_electricity_rate, item. rewrite Hv. simpl.
  by rewrite Hr.
Qed.

Lemma update_rate_get data db v r :
  data !! "rate" = Some v -> py_float float_of_str v = Ok r ->
  get_electricity_rate (store (update_rate data db)) = r.
Proof.
  intros Hv Hr. rewrite (update_rate_ok data db v r) by done. cbn [store].
  unfold get_electricity_rate.
  destruct (first rate_key (settings db)) as [s|] eqn:Hs; cbn [settings set_settings].
  - rewrite first_update_first by apply rate_key_set_value. by rewrite Hs.
  - by rewrite first_add_row, Hs, rate_key_default.
Qed.


(** X2: a rate request whose ['rate'] field converts to [r] is answered with
    200 and makes [r] the rate in effect, whatever its sign: the rate store
    and the dashboard return exactly [r] afterwards.  It upserts (no second
    rate row), leaves the realtime, daily and monthly tables alone and
    pushes no dashboard update. *)
Theorem X2_rate_set_then_get now data db v r :
  data !! "rate" = Some v ->
  py_float float_of_str v = Ok r ->
  let o := update_electricity_rate float_of_str data db in
  reply o = Response Success 200 /\
  get_electricity_rate (store o) = r /\
  electricity_rate (get_dashboard_data now (store o)) = r /\
  count rate_key (settings (store o)) = Nat.max 1 (count rate_key (settings db)) /\
  realtime_data (store o) = realtime_data db /\
  daily_consumption (store o) = daily_consumption db /\
  monthly_consumption (store o) = monthly_consumption db /\
  emitted o = [].
Proof.
  intros Hv Hr o.
  assert (Hget := update_rate_get data db v r Hv Hr). fold o in Hget.
  unfold o in *. rewrite (update_rate_ok data db v r) in * by done.
  cbn [store reply emitted] in *.
  split; [done|]. split; [done|]. split; [done|].
  destruct (first rate_key (settings db)) as [s|] eqn:Hs; cbn [settings set_settings].
  - rewrite count_update_first by apply rate_key_set_value.
    pose proof (first_Some_count _ _ _ Hs). repeat split; try done. lia.
  - rewrite count_add_row, rate_key_default. apply first_None_count in Hs.
    rewrite Hs. repeat split; done.
Qed.

(** X3: a rate request without a ['rate'] field, or with one that does not
    convert to a float, changes nothing and pushes nothing; it is answered
    with 500 and the raised exception ([KeyError] for the missing field:
    this route has no presence check that would answer 400). *)
Theorem X3_rate_request_failures data db :
  let o := update_electricity_rate float_of_str data db in
  (data !! "rate" = None ->
   reply o = Response (ErrorOf KeyError) 500 /\ store o = db /\ emitted o = []) /\
  (forall v e, data !! "rate" = Some v -> py_float float_of_str v = Raise e ->
   reply o = Response (ErrorOf e) 500 /\ store o = db /\ emitted o = []).
Proof.
  intros o. unfold o, update_electricity_rate, item. split.
  - by intros ->.
  - intros v e -> Hv. simpl. by rewrite Hv.
Qed.

End RateFacts.

(** ** What one ingest does to each key *)

Lemma daily_key_disjoint d1 p1 d2 p2 r :
  ~ (d1 = d2 /\ p1 = p2) -> daily_key d1 p1 r = true -> daily_key d2 p2 r = false.
Proof.
  unfold daily_key. intros Hne [Hd Hp]%andb_true_iff.
  apply bool_decide_eq_true in Hd. apply Z.eqb_eq in Hp.
  apply andb_false_iff.
  destruct (decide (d1 = d2)) as [->|Hd'].
  - right. apply Z.eqb_neq. intros Hp2. apply Hne. split; congruence.
  - left. apply bool_decide_eq_false. congruence.
Qed.

Lemma monthly_key_disjoint y1 m1 p1 y2 m2 p2 r :
  ~ (y1 = y2 /\ m1 = m2 /\ p1 = p2) ->
  monthly_key y1 m1 p1 r = true -> monthly_key y2 m2 p2 r = false.
Proof.
  unfold monthly_key. intros Hne [[Hy Hm]%andb_true_iff Hp]%andb_true_iff.
  apply Z.eqb_eq in Hy, Hm, Hp.
  destruct (MonthlyConsumption.year_ r =? y2) eqn:Hy2; [|done].
  destruct (MonthlyConsumption.month_ r =? m2) eqn:Hm2; [|done].
  apply Z.eqb_eq in Hy2, Hm2. simpl. apply Z.eqb_neq. intros Hp2.
  apply Hne. lia.
Qed.

(** The snapshot of any port after an ingest. *)
Lemma ingest_realtime_any now port v c p db q :
  first (realtime_port q) (realtime_data (committed (ingest now port v c p db))) =
  if decide (q = port)
  then Some (RealtimeData.Build port v c p
               (if (0 <? p)%float then "online" else "offline"))
  else first (realtime_port q) (realtime_data db).
Proof.
  rewrite ingest_realtime, first_add_row. destruct (decide (q = port)) as [->|Hne].
  - rewrite first_delete_same. unfold realtime_port; simpl. by rewrite Z.eqb_refl.
  - rewrite first_delete_other
      by (intros r; apply realtime_port_disjoint; congruence).
    destruct (first (realtime_port q) (realtime_data db)); [done|].
    unfold realtime_port; simpl. by destruct (Z.eqb_spec port q); [congruence|].
Qed.

(** The daily bucket of any key after an ingest. *)
Lemma ingest_daily_any now port v c p db d q :
  first (daily_key d q) (daily_consumption (committed (ingest now port v c p db))) =
  if decide (d = now /\ q = port)
  then daily_bump (calculate_energy_kwh p 1)
         (calculate_energy_kwh p 1 * get_electricity_rate db) p
       <$> first (daily_key now port) (daily_consumption db)
  else first (daily_key d q) (daily_consumption db).
Proof.
  destruct (decide (d = now /\ q = port)) as [[-> ->]|Hne]; [apply ingest_daily|].
  rewrite ingest_daily_rows.
  destruct (first (daily_key now port) (daily_consumption db)) eqn:Hf; [|done].
  apply first_update_other; [done|]. intros r. apply daily_key_disjoint.
  intros [-> ->]. by apply Hne.
Qed.

(** The monthly bucket of any key after an ingest. *)
Lemma ingest_monthly_any now port v c p db y m q :
  first (monthly_key y m q)
    (monthly_consumption (committed (ingest now port v c p db))) =
  if decide (y = year now /\ m = month now /\ q = port)
  then match first (daily_key now port) (daily_consumption db) with
       | Some _ =>
           monthly_bump (calculate_energy_kwh p 1)
             (calculate_energy_kwh p 1 * get_electricity_rate db)
           <$> first (monthly_key (year now) (month now) port)
                 (monthly_consumption db)
       | None => first (monthly_key (year now) (month now) port)
                   (monthly_consumption db)
       end
  else first (monthly_key y m q) (monthly_consumption db).
Proof.
  rewrite ingest_monthly_rows.
  destruct (first (daily_key now port) (daily_consumption db)) as [b|] eqn:Hb.
  2:{ destruct (decide _) as [(-> & -> & ->)|]; done. }
  destruct (first (monthly_key (year now) (month now) port) (monthly_consumption db))
    as [r0|] eqn:Hf.
  2:{ destruct (decide _) as [(-> & -> & ->)|]; [by rewrite Hf|done]. }
  destruct (decide (y = year now /\ m = month now /\ q = port))
    as [(-> & -> & ->)|Hne].
  - rewrite first_update_first by apply monthly_key_bump. by rewrite Hf.
  - apply first_update_other; [done|]. intros r. apply monthly_key_disjoint.
    intros (<- & <- & <-). by apply Hne.
Qed.

(** Row counts after an ingest. *)
Lemma ingest_realtime_count now port v c p db q :
  count (realtime_port q) (realtime_data (committed (ingest now port v c p db))) =
  if decide (q = port) then 1%nat else count (realtime_port q) (realtime_data db).
Proof.
  rewrite ingest_realtime, count_add_row. unfold realtime_port at 3; simpl.
  destruct (decide (q = port)) as [->|Hne].
  - by rewrite count_delete_same, Z.eqb_refl.
  - rewrite count_delete_other
      by (intros r; apply realtime_port_disjoint; congruence).
    destruct (Z.eqb_spec port q); [congruence|lia].
Qed.

Lemma ingest_daily_count now port v c p db d q :
  count (daily_key d q) (daily_consumption (committed (ingest now port v c p db))) =
  count (daily_key d q) (daily_consumption db).
Proof.
  rewrite ingest_daily_rows.
  destruct (first (daily_key now port) (daily_consumption db)); [|done].
  apply count_update_first. intros r. apply daily_key_bump.
Qed.

Lemma ingest_monthly_count now port v c p db y m q :
  count (monthly_key y m q)
    (monthly_consumption (committed (ingest now port v c p db))) =
  count (monthly_key y m q) (monthly_consumption db).
Proof.
  rewrite ingest_monthly_rows.
  destruct (first (daily_key now port) (daily_consumption db)); [|done].
  destruct (first _ (monthly_consumption db)); [|done].
  apply count_update_first. intros r. apply monthly_key_bump.
Qed.

Lemma ingest_unique now port v c p db :
  unique_rows db -> unique_rows (committed (ingest now port v c p db)).
Proof.
  intros (Hr & Hd & Hm & Hs). repeat split.
  - intros q. rewrite ingest_realtime_count. destruct (decide _); [lia|apply Hr].
  - intros d q. rewrite ingest_daily_count. apply Hd.
  - intros y m q. rewrite ingest_monthly_count. apply Hm.
  - by rewrite ingest_settings.
Qed.




(** X7: no reading, whatever its sign, lowers a runtime: every daily row
    keeps its place, its date and its port, and its runtime grows by zero or
    one minute. *)
Theorem X7_runtime_never_decreases now port v c p db (i : nat) r :
  daily_consumption db !! i = Some r ->
  exists r', daily_consumption (committed (ingest now port v c p db)) !! i = Some r' /\
    DailyConsumption.date_ r' = DailyConsumption.date_ r /\
    DailyConsumption.port r' = DailyConsumption.port r /\
    DailyConsumption.runtime_minutes r <= DailyConsumption.runtime_minutes r'
      <= DailyConsumption.runtime_minutes r + 1.
Proof.
  intros Hr. destruct (ingest_daily_row now port v c p db i r Hr) as [H|[_ H]];
    eexists; (split; [exact H|]); simpl.
  - repeat split; lia.
  - repeat split; try done; destruct (0 <? p)%float; lia.
Qed.


(** ** The dashboard as a function of what it reads *)

Lemma fold_left_agree {A B : Type} (f g : A -> B -> A) (l : list B) :
  Forall (fun x => forall acc, f acc x = g acc x) l ->
  forall acc, fold_left f l acc = fold_left g l acc.
Proof.
  induction 1 as [|x l Hx _ IH]; intros acc; simpl; [done|].
  by rewrite Hx, IH.
Qed.

Lemma dashboard_agree now db1 db2 :
  same_reads now db1 db2 -> get_dashboard_data now db1 = get_dashboard_data now db2.
Proof.
  intros [Hrate Hall]. unfold get_dashboard_data. cbv zeta.
  assert (Hr : realtime_loop db1 = realtime_loop db2).
  { unfold realtime_loop. apply fold_left_agree.
    eapply Forall_impl; [exact Hall|]. intros port (-> & _ & _) acc. done. }
  assert (Ht : today_loop db1 now = today_loop db2 now).
  { unfold today_loop. apply fold_left_agree.
    eapply Forall_impl; [exact Hall|]. intros port (_ & H & _) acc.
    unfold today_step. by rewrite H. }
  assert (Hm : monthly_loop db1 (year now) (month now) =
               monthly_loop db2 (year now) (month now)).
  { unfold monthly_loop. apply fold_left_agree.
    eapply Forall_impl; [exact Hall|]. intros port (_ & _ & H) acc.
    unfold monthly_step. by rewrite H. }
  by rewrite Hr, Ht, Hm, Hrate.
Qed.

(** X9: the dashboard depends on the store only through the electricity
    rate and, for ports 1 to 4, the first snapshot, the first bucket of the
    day and the first bucket of the month: two stores that agree on these
    give the same dashboard, whatever other rows they hold. *)
Theorem X9_dashboard_reads now db1 db2 :
  same_reads now db1 db2 ->
  get_dashboard_data now db1 = get_dashboard_data now db2.
Proof. apply dashboard_agree. Qed.

(** X10: readings of two different ports can be ingested in either order:
    every later dashboard is the same, even when the two readings carry
    different dates. *)
Theorem X10_ports_commute today now1 now2 p q v1 c1 w1 v2 c2 w2 db :
  p <> q ->
  get_dashboard_data today
    (committed (ingest now2 q v2 c2 w2 (committed (ingest now1 p v1 c1 w1 db)))) =
  get_dashboard_data today
    (committed (ingest now1 p v1 c1 w1 (committed (ingest now2 q v2 c2 w2 db)))).
Proof.
  intros Hpq. apply dashboard_agree. split; [by rewrite !rate_ingest|].
  apply Forall_forall. intros r _.
  assert (Hqp : forall d d' : date, ~ (d = d' /\ q = p)) by (intros ? ? [_ ?]; congruence).
  assert (Hpq' : forall d d' : date, ~ (d = d' /\ p = q)) by (intros ? ? [_ ?]; congruence).
  assert (Hqp3 : forall y y' m m' : Z, ~ (y = y' /\ m = m' /\ q = p))
    by (intros ? ? ? ? (_ & _ & ?); congruence).
  assert (Hpq3 : forall y y' m m' : Z, ~ (y = y' /\ m = m' /\ p = q))
    by (intros ? ? ? ? (_ & _ & ?); congruence).
  split; [|split].
  - rewrite !ingest_realtime_any.
    destruct (decide (r = q)), (decide (r = p)); congruence.
  - rewrite !ingest_daily_any, !rate_ingest.
    rewrite (decide_False (P := now2 = now1 /\ q = p)) by apply Hqp.
    rewrite (decide_False (P := now1 = now2 /\ p = q)) by apply Hpq'.
    destruct (decide (today = now2 /\ r = q)) as [[_ ->]|]; [|done].
    by rewrite decide_False by apply Hqp.
  - rewrite !ingest_monthly_any, !rate_ingest, !ingest_daily_any.
    rewrite (decide_False (P := now2 = now1 /\ q = p)) by apply Hqp.
    rewrite (decide_False (P := now1 = now2 /\ p = q)) by apply Hpq'.
    rewrite (decide_False
               (P := year now2 = year now1 /\ month now2 = month now1 /\ q = p))
      by apply Hqp3.
    rewrite (decide_False
               (P := year now1 = year now2 /\ month now1 = month now2 /\ p = q))
      by apply Hpq3.
    destruct (decide (year today = year now2 /\ month today = month now2 /\ r = q))
      as [(_ & _ & ->)|]; [|done].
    by rewrite decide_False by apply Hqp3.
Qed.

(** X11: the shape of the dashboard does not depend on the store: the
    realtime view has exactly the keys port1..port4, the today and monthly
    views have these and ['total']; a port without a snapshot shows as
    offline with zero readings, a port without a bucket shows zero energy,
    zero cost and ["0h 0m"]; only the monthly total carries ['days']. *)
Theorem X11_dashboard_shape now db :
  let d := get_dashboard_data now db in
  dom (realtime d) =@{gset string} list_to_set ["port1"; "port2"; "port3"; "port4"] /\
  dom (today d) =@{gset string}
    list_to_set ["port1"; "port2"; "port3"; "port4"; "total"] /\
  dom (monthly d) =@{gset string}
    list_to_set ["port1"; "port2"; "port3"; "port4"; "total"] /\
  (forall p, 1 <= p <= 4 ->
     (first (realtime_port p) (realtime_data db) = None ->
      realtime d !! port_key p =
        Some (RealtimeView.Build (PyInt 0) (PyInt 0) (PyInt 0) "offline")) /\
     (first (daily_key now p) (daily_consumption db) = None ->
      today d !! port_key p = Some (TodayView.Build (PyInt 0) (PyInt 0) "0h 0m")) /\
     (first (monthly_key (year now) (month now) p) (monthly_consumption db) = None ->
      monthly d !! port_key p = Some (MonthlyView.Build (PyInt 0) (PyInt 0) None)) /\
     (exists e, monthly d !! port_key p = Some e /\ MonthlyView.days e = None)) /\
  (exists e, monthly d !! "total" = Some e /\ MonthlyView.days e = Some (day now)).
Proof.
  intros d. unfold d. split; [|split; [|split; [|split]]].
  - unfold get_dashboard_data; cbv zeta; cbn [realtime]. unfold realtime_loop.
    rewrite py_range_1_5. cbn [fold_left]. port_keys. same_keys.
  - unfold get_dashboard_data; cbv zeta; cbn [today]. rewrite today_loop_data.
    same_keys.
  - unfold get_dashboard_data; cbv zeta; cbn [monthly]. rewrite monthly_loop_data.
    same_keys.
  - intros p Hp. repeat split.
    + intros H. by rewrite realtime_lookup, H.
    + intros H. by rewrite today_lookup, H.
    + intros H. by rewrite monthly_lookup, H.
    + rewrite monthly_lookup by done. eexists; split; [done|].
      by destruct (first _ _).
  - rewrite monthly_total. by eexists.
Qed.

(** ** The routes as a whole *)


Lemma reset_unique now db :
  unique_rows db -> unique_rows (store (reset_daily_data now db)).
Proof.
  intros (Hr & Hd & Hm & Hs). repeat split; simpl; try done.
  intros d q. etrans; [apply count_delete_le|apply Hd].
Qed.

Lemma init_unique db : unique_rows db -> unique_rows (init_database db).
Proof.
  intros (Hr & Hd & Hm & Hs). unfold init_database.
  destruct (first rate_key (settings db)) eqn:Hf; [done|].
  repeat split; simpl; try done.
  rewrite count_add_row. apply first_None_count in Hf. rewrite Hf.
  by rewrite rate_key_default.
Qed.

Section DataRoute.
Variable int_of_str : string -> option Z.
Variable float_of_str : string -> option float.

Implicit Types (data : gmap string json) (db : database) (now : date).

Local Abbreviation receive := (receive_esp_data int_of_str float_of_str).
Local Abbreviation update_rate := (update_electricity_rate float_of_str).

Lemma receive_cases now data db :
  (exists port v c p,
     1 <= port <= 4 /\
     receive now data db =
       let updates := ingest now port v c p db in
       match raised updates with
       | Some e => Outcome (Response (ErrorOf e) 500) (committed updates) []
       | None =>
           Outcome (Response Success 200) (committed updates)
             [get_dashboard_data now (committed updates)]
       end) \/
  (exists r, receive now data db = Outcome r db [] /\
     ((exists msg, r = Response (Error msg) 400) \/
      (exists e, r = Response (ErrorOf e) 500))).
Proof.
  unfold receive_esp_data.
  destruct (negb _); [right; eexists; split; [done|]; left; by eexists|].
  unfold bind, item.
  destruct (data !! "port") as [pv|];
    [|right; eexists; split; [done|]; right; by eexists].
  destruct (py_int int_of_str pv) as [port|e];
    [|right; eexists; split; [done|]; right; by eexists].
  destruct ((port <? 1) || (port >? 4)) eqn:Hrange;
    [right; eexists; split; [done|]; left; by eexists|].
  apply orb_false_iff in Hrange as [H1 H4].
  apply Z.ltb_ge in H1. rewrite Z.gtb_ltb in H4. apply Z.ltb_ge in H4.
  destruct (data !! "voltage") as [vv|];
    [|right; eexists; split; [done|]; right; by eexists].
  destruct (py_float float_of_str vv) as [v|e];
    [|right; eexists; split; [done|]; right; by eexists].
  destruct (data !! "current") as [cv|];
    [|right; eexists; split; [done|]; right; by eexists].
  destruct (py_float float_of_str cv) as [c|e];
    [|right; eexists; split; [done|]; right; by eexists].
  destruct (data !! "power") as [wv|];
    [|right; eexists; split; [done|]; right; by eexists].
  destruct (py_float float_of_str wv) as [p|e];
    [|right; eexists; split; [done|]; right; by eexists].
  left. exists port, v, c, p. split; [lia|]. cbv zeta.
  by destruct (raised (ingest now port v c p db)).
Qed.


(** X13: the route reads the request body only through the four required
    fields: two bodies that agree on them get the same answer, the same
    store and the same push, whatever else they carry. *)
Theorem X13_data_route_reads_four_fields now data1 data2 db :
  Forall (fun field => data1 !! field = data2 !! field) required_fields ->
  receive_esp_data int_of_str float_of_str now data1 db =
  receive_esp_data int_of_str float_of_str now data2 db.
Proof.
  intros Hall. unfold required_fields in Hall.
  apply Forall_cons in Hall as [Hp Hall]. apply Forall_cons in Hall as [Hv Hall].
  apply Forall_cons in Hall as [Hc Hall]. apply Forall_cons in Hall as [Hw _].
  unfold receive_esp_data, item, required_fields. cbn [forallb].
  by rewrite Hp, Hv, Hc, Hw.
Qed.

Lemma receive_unique now data db :
  unique_rows db -> unique_rows (store (receive now data db)).
Proof.
  intros Hu. destruct (receive_cases now data db)
    as [(port & v & c & p & _ & ->)|(r & -> & _)]; [|done].
  cbv zeta. destruct (raised _); by apply ingest_unique.
Qed.

Lemma update_rate_unique data db :
  unique_rows db -> unique_rows (store (update_rate data db)).
Proof.
  intros Hu. unfold update_electricity_rate, bind, item.
  destruct (data !! "rate") as [v|]; [|done].
  destruct (py_float float_of_str v) as [r|e]; [|done].
  destruct Hu as (Hr & Hd & Hm & Hs).
  destruct (first rate_key (settings db)) eqn:Hf; repeat split; simpl; try done.
  - by rewrite count_update_first by (intros s; apply rate_key_set_value).
  - rewrite count_add_row. apply first_None_count in Hf. by rewrite Hf.
Qed.

(** X14: every entry point keeps the tables free of duplicates: if no port
    has two snapshots, no key two buckets and the rate at most one setting,
    this still holds after the start-up initialisation, after any request
    to the data route, the reset route or the rate route. *)
Theorem X14_routes_keep_rows_unique now data rate_data db :
  unique_rows db ->
  unique_rows (init_database db) /\
  unique_rows (store (receive_esp_data int_of_str float_of_str now data db)) /\
  unique_rows (store (reset_daily_data now db)) /\
  unique_rows (store (update_electricity_rate float_of_str rate_data db)).
Proof.
  intros Hu. split; [by apply init_unique|]. split; [by apply receive_unique|].
  split; [by apply reset_unique|by apply update_rate_unique].
Qed.

End DataRoute.


(** ** The sample generator *)

Lemma ltb_zero_ne v : (0 <? v)%float = true -> (v =? 0)%float = false.
Proof.
  rewrite ltb_spec, FloatAxioms.eqb_spec, Prim2SF_zero.
  destruct (Prim2SF v) as [s|s| |s m e]; try done; by destruct s.
Qed.

Lemma sample_power_device port g :
  sample_power port g =
  let '(lo, hi, threshold) := device port in
  if (threshold <? draws g (cursor g))%float
  then ((float_of_Z lo + float_of_Z (hi - lo) * draws g (S (cursor g)))%float,
        Rng (draws g) (S (S (cursor g))))
  else (0%float, Rng (draws g) (S (cursor g))).
Proof.
  unfold sample_power, device, random_uniform, random_random.
  destruct (port =? 1); [done|]. destruct (port =? 2); [done|].
  by destruct (port =? 3).
Qed.

Lemma sample_power_rng port g p g' :
  sample_power port g = (p, g') ->
  draws g' = draws g /\ (cursor g < cursor g' <= cursor g + 2)%nat.
Proof.
  rewrite sample_power_device. destruct (device port) as [[lo hi] t].
  destruct (_ <? _)%float; intros [= <- <-]; simpl; split; (done || lia).
Qed.

(** A turn of the loop on a port in 1..4 gets as far as its updates: the
    index is in range and the division is guarded. *)
Lemma sample_port_ingests now port db g :
  1 <= port <= 4 ->
  exists v c p g',
    sample_port now port (db, g) =
      (committed (ingest now port v c p db), g',
       Raised <$> raised (ingest now port v c p db)) /\
    draws g' = draws g /\ (cursor g < cursor g' <= cursor g + 3)%nat /\
    ((0 <? p)%float = false -> v = 0%float /\ c = 0%float).
Proof.
  intros Hport. unfold sample_port.
  destruct (sample_power port g) as [p g1] eqn:Hp.
  apply sample_power_rng in Hp as [Hd Hc].
  destruct (0 <? p)%float eqn:Hpos.
  - assert (Hbase : exists base, base_voltages !! Z.to_nat (port - 1) = Some base).
    { port_cases port; by eexists. }
    destruct Hbase as [base ->]. unfold random_uniform, random_random.
    set (v := (float_of_Z base + _)%float).
    destruct (0 <? v)%float eqn:Hv.
    + rewrite (ltb_zero_ne v Hv). eexists v, _, p, _. split; [done|]. simpl.
      split; [done|]. split; [lia|]. by rewrite Hpos.
    + eexists v, _, p, _. split; [done|]. simpl.
      split; [done|]. split; [lia|]. by rewrite Hpos.
  - change (0 <? 0)%float with false. cbv iota.
    eexists _, _, p, g1. split; [done|]. split; [done|]. split; [lia|done].
Qed.

(** Existing buckets are still there after an ingest. *)
Lemma ingest_keeps_buckets now port v c p db d q :
  (is_Some (daily_bucket d q db) ->
   is_Some (daily_bucket d q (committed (ingest now port v c p db)))) /\
  (is_Some (monthly_bucket d q db) ->
   is_Some (monthly_bucket d q (committed (ingest now port v c p db)))).
Proof.
  unfold daily_bucket, monthly_bucket. split.
  - rewrite ingest_daily_any. destruct (decide _) as [[-> ->]|]; [|done].
    intros [b ->]. by eexists.
  - rewrite ingest_monthly_any. destruct (decide _) as [(-> & -> & ->)|]; [|done].
    intros [m ->]. destruct (first _ _); by eexists.
Qed.

Lemma sample_ports_ingest now ports : forall db g,
  Forall (fun port => 1 <= port <= 4) ports ->
  exists samples g' err,
    sample_ports now ports (db, g) = (ingest_all now samples db, g', err) /\
    samples.*1 `prefix_of` ports /\
    (err = None /\ samples.*1 = ports \/ err = Some (Raised TypeError)) /\
    Forall (fun s => (0 <? s.2.2)%float = false ->
                     s.2.1.1 = 0%float /\ s.2.1.2 = 0%float) samples /\
    draws g' = draws g /\
    (cursor g <= cursor g' <= cursor g + 3 * length ports)%nat /\
    (Forall (fun port => is_Some (daily_bucket now port db) /\
                         is_Some (monthly_bucket now port db)) ports ->
     err = None).
Proof.
  induction ports as [|port ports IH]; intros db g Hall.
  - exists [], g, None. simpl. repeat split; (done || lia || auto).
  - apply Forall_cons in Hall as [Hport Hall].
    destruct (sample_port_ingests now port db g Hport)
      as (v & c & p & g1 & Hstep & Hd1 & Hc1 & Hidle).
    pose proof (ingest_raised now port v c p db) as Hraised.
    destruct (raised (ingest now port v c p db)) as [e|] eqn:He.
    + assert (e = TypeError) as ->.
      { destruct (first (daily_key now port) (daily_consumption db));
          [destruct (first _ (monthly_consumption db))|]; congruence. }
      exists [(port, (v, c, p))], g1, (Some (Raised TypeError)).
      change (Raised <$> Some TypeError) with (Some (Raised TypeError)) in Hstep.
      cbn [sample_ports]. rewrite Hstep.
      split; [done|]. split; [by exists ports|]. split; [by right|].
      split; [constructor; [exact Hidle|constructor]|].
      split; [done|]. split; [simpl length; lia|].
      intros [[[b Hb] [m Hm]] _]%Forall_cons.
      unfold daily_bucket, monthly_bucket in Hb, Hm. rewrite Hb, Hm in Hraised. done.
    + destruct (IH (committed (ingest now port v c p db)) g1 Hall)
        as (samples & g' & err & Hrest & Hports & Herr & Hidles & Hd & Hc & Hfull).
      exists ((port, (v, c, p)) :: samples), g', err.
      change (Raised <$> None) with (@None sample_error) in Hstep.
      cbn [sample_ports]. rewrite Hstep, Hrest.
      split; [done|]. split; [rewrite fmap_cons; by apply prefix_cons|].
      split.
      { destruct Herr as [[-> Heq]| ->]; [left|by right].
        split; [done|]. by rewrite fmap_cons, Heq. }
      split; [by constructor|]. split; [congruence|].
      split; [simpl length; lia|].
      intros [_ Hbuckets]%Forall_cons. apply Hfull.
      eapply Forall_impl; [exact Hbuckets|]. intros q [Hq1 Hq2].
      split; by apply ingest_keeps_buckets.
Qed.

Lemma ingest_all_unique now samples : forall db,
  unique_rows db -> unique_rows (ingest_all now samples db).
Proof.
  induction samples as [|[port [[v c] p]] samples IH]; intros db Hu; [done|].
  apply IH. by apply ingest_unique.
Qed.

Lemma ingest_all_rate now samples : forall db,
  get_electricity_rate (ingest_all now samples db) = get_electricity_rate db.
Proof.
  induction samples as [|[port [[v c] p]] samples IH]; intros db; [done|].
  simpl. by rewrite IH, rate_ingest.
Qed.

Lemma ingest_all_realtime_count now samples : forall db q,
  count (realtime_port q) (realtime_data (ingest_all now samples db)) =
  if bool_decide (q ∈ samples.*1) then 1%nat
  else count (realtime_port q) (realtime_data db).
Proof.
  induction samples as [|[port [[v c] p]] samples IH]; intros db q; [done|].
  simpl. rewrite IH, ingest_realtime_count.
  destruct (decide (q = port)) as [->|Hne].
  - rewrite (bool_decide_eq_true_2 (port ∈ port :: _)) by apply list_elem_of_here.
    by destruct (bool_decide _).
  - destruct (bool_decide (q ∈ samples.*1)) eqn:Hin.
    + apply bool_decide_eq_true in Hin.
      by rewrite bool_decide_eq_true_2 by by apply list_elem_of_further.
    + apply bool_decide_eq_false in Hin. rewrite bool_decide_eq_false_2; [done|].
      intros [?|?]%elem_of_cons; done.
Qed.

Lemma ingest_all_counts now samples : forall db,
  (forall d q,
     count (daily_key d q) (daily_consumption (ingest_all now samples db)) =
     count (daily_key d q) (daily_consumption db)) /\
  (forall y m q,
     count (monthly_key y m q) (monthly_consumption (ingest_all now samples db)) =
     count (monthly_key y m q) (monthly_consumption db)).
Proof.
  induction samples as [|[port [[v c] p]] samples IH]; intros db; [done|].
  destruct (IH (committed (ingest now port v c p db))) as [IHd IHm]. split.
  - intros d q. simpl. by rewrite IHd, ingest_daily_count.
  - intros y m q. simpl. by rewrite IHm, ingest_monthly_count.
Qed.

(** X16: a pass of the sample generator never raises [IndexError] or
    [ZeroDivisionError]: the index into the base voltages is in range and
    the division is guarded.  It takes the ports 1, 2, 3, 4 in this order
    and ingests one reading for each, a reading without power having
    voltage and current zero, until the updates of a port raise
    [TypeError]; it runs to the end when every port has a bucket for the
    day and for the month.  It draws at most twelve random numbers.  Every
    port it reached has exactly one snapshot afterwards; no bucket row is
    added, the rate is what it was and tables without duplicates are still
    without. *)
Theorem X16_generator_pass now db g :
  exists samples g' err,
    let db' := ingest_all now samples db in
    generate_sample_data now (db, g) = (db', g', err) /\
    samples.*1 `prefix_of` [1; 2; 3; 4] /\
    (err = None /\ samples.*1 = [1; 2; 3; 4] \/ err = Some (Raised TypeError)) /\
    Forall (fun s => (0 <? s.2.2)%float = false ->
                     s.2.1.1 = 0%float /\ s.2.1.2 = 0%float) samples /\
    draws g' = draws g /\ (cursor g <= cursor g' <= cursor g + 12)%nat /\
    (Forall (fun port => is_Some (daily_bucket now port db) /\
                         is_Some (monthly_bucket now port db)) (py_range 1 5) ->
     err = None) /\
    Forall (fun port => count (realtime_port port) (realtime_data db') = 1%nat)
      samples.*1 /\
    (forall d q, count (daily_key d q) (daily_consumption db') =
                 count (daily_key d q) (daily_consumption db)) /\
    (forall y m q, count (monthly_key y m q) (monthly_consumption db') =
                   count (monthly_key y m q) (monthly_consumption db)) /\
    get_electricity_rate db' = get_electricity_rate db /\
    (unique_rows db -> unique_rows db').
Proof.
  destruct (sample_ports_ingest now (py_range 1 5) db g)
    as (samples & g' & err & Hrun & Hports & Herr & Hidle & Hd & Hc & Hfull).
  { apply Forall_forall. intros port Hin. apply elem_of_seqZ in Hin. lia. }
  exists samples, g', err. cbv zeta. unfold generate_sample_data.
  split; [done|]. split; [done|]. split; [done|]. split; [done|].
  split; [done|]. split; [simpl in Hc; lia|]. split; [done|].
  split.
  { apply Forall_forall. intros port Hin.
    by rewrite ingest_all_realtime_count, bool_decide_eq_true_2. }
  destruct (ingest_all_counts now samples db) as [Hcd Hcm].
  split; [done|]. split; [done|].
  split; [apply ingest_all_rate|apply ingest_all_unique].
Qed.

(** ** A port of the generator, idle or running *)

Lemma unit_draw_finite u :
  (0 <=? u)%float = true -> (u <? 1)%float = true ->
  forall s, Prim2SF u <> S754_infinity s.
Proof.
  rewrite leb_zero_nonneg, ltb_spec.
  change (Prim2SF 1) with (S754_finite false 4503599627370496 (-52)).
  intros H0 H1 s Hu. rewrite Hu in H0, H1. by destruct s.
Qed.

Lemma leb_pos_ltb a m e x :
  Prim2SF a = S754_finite false m e -> (a <=? x)%float = true -> (0 <? x)%float = true.
Proof.
  rewrite FloatAxioms.leb_spec, ltb_spec, Prim2SF_zero. intros ->.
  destruct (Prim2SF x) as [s|[]| |[] m' e']; try done.
Qed.

Lemma span_times_draw_nonneg d m e u :
  Prim2SF (float_of_Z d) = S754_finite false m e ->
  (0 <=? u)%float = true -> (u <? 1)%float = true ->
  (0 <=? float_of_Z d * u)%float = true.
Proof.
  intros Hd Hu Hlt. rewrite leb_zero_nonneg in *. rewrite FloatAxioms.mul_spec, Hd.
  apply SFmul_nonneg; [done|done| |done].
  apply unit_draw_finite; [by rewrite leb_zero_nonneg|done].
Qed.

Lemma device_floats port :
  1 <= port <= 4 ->
  is_finite (float_of_Z (device port).1.1) = true /\
  (exists m e, Prim2SF (float_of_Z (device port).1.1) = S754_finite false m e) /\
  (exists m e, Prim2SF (float_of_Z ((device port).1.2 - (device port).1.1)) =
               S754_finite false m e).
Proof.
  intros Hport. port_cases port; (split; [by vm_compute|]);
    split; eexists _, _; vm_compute; reflexivity.
Qed.

(** X17: what the generator does on a port whose buckets exist is decided by
    its first draw.  If the draw is not above the idle threshold of the
    port's device, the port is sampled as idle with a single draw: voltage,
    current and power are zero, the snapshot is offline and the day's
    runtime stays.  If it is above, and the next draw is in [0, 1) as
    [random()] gives it, the power is [lo + (hi - lo) * u], not below [lo]
    and above zero, the voltage is the port's base voltage with a jitter,
    the snapshot is online and the day's runtime grows by a minute.  In
    both cases the three updates are committed and nothing is raised. *)
Theorem X17_generator_idle_or_running now port db g b m :
  1 <= port <= 4 ->
  daily_bucket now port db = Some b ->
  monthly_bucket now port db = Some m ->
  let lo := (device port).1.1 in
  let hi := (device port).1.2 in
  let threshold := (device port).2 in
  let gate := draws g (cursor g) in
  let u := draws g (S (cursor g)) in
  let u' := draws g (S (S (cursor g))) in
  ((threshold <? gate)%float = false ->
   let db' := committed (ingest now port 0 0 0 db) in
   sample_port now port (db, g) = (db', Rng (draws g) (S (cursor g)), None) /\
   first (realtime_port port) (realtime_data db') =
     Some (RealtimeData.Build port 0 0 0 "offline") /\
   DailyConsumption.runtime_minutes <$> daily_bucket now port db' =
     Some (DailyConsumption.runtime_minutes b)) /\
  ((threshold <? gate)%float = true ->
   (0 <=? u)%float = true -> (u <? 1)%float = true ->
   exists base,
     base_voltages !! Z.to_nat (port - 1) = Some base /\
     let p := (float_of_Z lo + float_of_Z (hi - lo) * u)%float in
     let v := (float_of_Z base + (float_of_Z (-5) + float_of_Z (5 - -5) * u'))%float in
     let c := if (0 <? v)%float then (p / v)%float else 0%float in
     let db' := committed (ingest now port v c p db) in
     sample_port now port (db, g) =
       (db', Rng (draws g) (S (S (S (cursor g)))), None) /\
     (float_of_Z lo <=? p)%float = true /\ (0 <? p)%float = true /\
     first (realtime_port port) (realtime_data db') =
       Some (RealtimeData.Build port v c p "online") /\
     DailyConsumption.runtime_minutes <$> daily_bucket now port db' =
       Some (DailyConsumption.runtime_minutes b + 1)).
Proof.
  intros Hport Hb Hm lo hi threshold gate u u'.
  unfold daily_bucket, monthly_bucket in Hb, Hm.
  assert (Hok : forall v c p, raised (ingest now port v c p db) = None)
    by (intros; by rewrite ingest_raised, Hb, Hm).
  split.
  - intros Hgate db'. unfold sample_port. rewrite sample_power_device.
    fold lo hi threshold. destruct (device port) as [[lo' hi'] t'] eqn:Hdev.
    simpl in lo, hi, threshold. fold gate. unfold threshold in Hgate.
    rewrite Hgate. change (0 <? 0)%float with false. cbv iota.
    split.
    { replace (@None sample_error)
        with (Raised <$> raised (ingest now port 0 0 0 db)) by (by rewrite Hok).
      done. }
    unfold db'. split.
    + by rewrite ingest_realtime_any, decide_True.
    + unfold daily_bucket. by rewrite ingest_daily, Hb.
  - intros Hgate Hu Hlt.
    destruct (device_floats port Hport) as (Hfin & (m0 & e & Hlo) & (m' & e' & Hspan)).
    fold lo in Hfin, Hlo. fold lo hi in Hspan.
    assert (Hbase : exists base, base_voltages !! Z.to_nat (port - 1) = Some base).
    { port_cases port; by eexists. }
    destruct Hbase as [base Hbase]. exists base. split; [done|].
    intros p v c db'.
    assert (Hle : (float_of_Z lo <=? p)%float = true).
    { apply add_nonneg_le; [done|]. by eapply span_times_draw_nonneg. }
    assert (Hpos : (0 <? p)%float = true) by exact (leb_pos_ltb _ _ _ _ Hlo Hle).
    split; [|split; [done|split; [done|split]]].
    + unfold sample_port. rewrite sample_power_device.
      destruct (device port) as [[lo' hi'] t'] eqn:Hdev.
      simpl in lo, hi, threshold. fold gate. unfold threshold in Hgate.
      rewrite Hgate. fold u. fold lo hi. fold p. rewrite Hpos, Hbase.
      unfold random_uniform, random_random. cbn [draws cursor]. fold u'. fold v.
      unfold db', c.
      replace (@None sample_error)
        with (Raised <$> raised
                (ingest now port v (if (0 <? v)%float then (p / v)%float else 0%float)
                   p db)) by (by rewrite Hok).
      destruct (0 <? v)%float eqn:Hv; [|done].
      by rewrite (ltb_zero_ne v Hv).
    + unfold db'. rewrite ingest_realtime_any, decide_True by done. by rewrite Hpos.
    + unfold db', daily_bucket. rewrite ingest_daily, Hb. simpl. by rewrite Hpos.
Qed.

(** ** Whole numbers through [float] and [int] *)

Lemma Prim2SF_finite_not_infinity x s m e :
  Prim2SF x = S754_finite s m e -> is_infinity x = false.
Proof.
  unfold Prim2SF. destruct (is_nan x); [done|]. destruct (is_zero x); [done|].
  by destruct (is_infinity x).
Qed.

Lemma Prim2SF_zero_not_infinity x s : Prim2SF x = S754_zero s -> is_infinity x = false.
Proof.
  unfold Prim2SF. destruct (is_nan x); [done|].
  unfold is_infinity. destruct (is_zero x) eqn:Hz.
  - intros _. unfold is_zero in Hz. apply eqb_zero_inv in Hz as [s' Hs'].
    rewrite FloatAxioms.eqb_spec, abs_spec, Hs'. done.
  - by destruct (abs x =? infinity)%float.
Qed.

Lemma binary_round_whole s p :
  Zpos p < 2 ^ 53 ->
  exists m e,
    binary_round prec emax s p 0 = S754_finite s m e /\
    bounded prec emax m e = true /\ ulps m e = Zpos p * 2 ^ 1074.
Proof.
  intros Hp.
  destruct (binary_round_char s p 0 ltac:(lia)) as (m & e & Hcan & Hround & _ & Hexact).
  cbv zeta in Hexact.
  assert (Hbl : bit_length (Zpos p) <= 53).
  { pose proof (bit_length_bounds (Zpos p) ltac:(lia)) as [Hlow _].
    apply Z.nlt_ge. intros Hgt.
    assert (2 ^ 53 <= 2 ^ (bit_length (Zpos p) - 1)) by (apply Z.pow_le_mono_r; lia).
    lia. }
  pose proof (bit_length_pos (Zpos p) ltac:(lia)) as Hbl1.
  assert (HN : ulps p 0 = Zpos p * 2 ^ 1074) by reflexivity.
  rewrite bit_length_ulps in Hexact by lia.
  replace (Z.max (bit_length (Zpos p) + (0 + 1074) - 53) 0)
    with (bit_length (Zpos p) + 1021) in Hexact by lia.
  assert (Hm : ulps m e = Zpos p * 2 ^ 1074).
  { rewrite <- HN. apply Hexact. rewrite HN.
    replace 1074 with ((53 - bit_length (Zpos p)) + (bit_length (Zpos p) + 1021))
      at 1 by lia.
    rewrite Z.pow_add_r by lia. rewrite Z.mul_assoc. apply Z.mod_mul.
    apply Z.pow_nonzero; lia. }
  destruct (canonical_inv m e Hcan) as (Hlow & _ & _).
  assert (He : e < 53).
  { apply Z.nle_gt. intros Hge. unfold ulps in Hm.
    assert (2 ^ 1127 <= 2 ^ (e + 1074)) by (apply Z.pow_le_mono_r; lia).
    assert (Zpos p * 2 ^ 1074 < 2 ^ 53 * 2 ^ 1074).
    { apply Z.mul_lt_mono_pos_r; [apply Z.pow_pos_nonneg; lia|done]. }
    rewrite <- Z.pow_add_r in H0 by lia. change (53 + 1074) with 1127 in H0.
    assert (2 ^ (e + 1074) <= Zpos m * 2 ^ (e + 1074)).
    { pose proof (Z.pow_pos_nonneg 2 (e + 1074) ltac:(lia) ltac:(lia)). nia. }
    lia. }
  exists m, e. rewrite Hround.
  replace (e <=? 971) with true by (symmetry; apply Z.leb_le; lia).
  split; [done|]. split; [|done].
  unfold bounded. rewrite Hcan. apply Z.leb_le. change (emax - prec) with 971. lia.
Qed.

Lemma float_of_Z_whole z :
  Z.abs z < 2 ^ 53 ->
  z = 0 /\ Prim2SF (float_of_Z z) = S754_zero false \/
  exists m e,
    Prim2SF (float_of_Z z) = S754_finite (z <? 0) m e /\
    -1074 <= e /\ ulps m e = Z.abs z * 2 ^ 1074.
Proof.
  intros Hz. unfold float_of_Z. destruct z as [|p|p]; simpl binary_normalize.
  - left. split; [done|]. by rewrite Prim2SF_SF2Prim.
  - right. destruct (binary_round_whole false p) as (m & e & -> & Hb & Hm); [lia|].
    exists m, e. rewrite Prim2SF_SF2Prim by done.
    destruct (bounded_inv m e Hb) as [Hcan _].
    destruct (canonical_inv m e Hcan) as (Hlow & _). by repeat split.
  - right. destruct (binary_round_whole true p) as (m & e & -> & Hb & Hm); [lia|].
    exists m, e. rewrite Prim2SF_SF2Prim by done.
    destruct (bounded_inv m e Hb) as [Hcan _].
    destruct (canonical_inv m e Hcan) as (Hlow & _). by repeat split.
Qed.

Lemma int_of_float_whole z : Z.abs z < 2 ^ 53 -> int_of_float (float_of_Z z) = Ok z.
Proof.
  intros Hz. unfold int_of_float.
  destruct (float_of_Z_whole z Hz) as [[-> ->]|(m & e & -> & Hlow & Hm)]; [done|].
  unfold ulps in Hm. f_equal.
  assert (Ha : (if 0 <=? e then Zpos m * 2 ^ e else Zpos m / 2 ^ (- e)) = Z.abs z).
  { destruct (Z.leb_spec 0 e) as [He|He].
    - rewrite Z.pow_add_r, Z.mul_assoc in Hm by lia.
      apply Z.mul_cancel_r in Hm; [done|]. apply Z.pow_nonzero; lia.
    - replace 1074 with (- e + (e + 1074)) in Hm at 2 by lia.
      rewrite (Z.pow_add_r 2 (- e) (e + 1074)), Z.mul_assoc in Hm by lia.
      apply Z.mul_cancel_r in Hm; [|apply Z.pow_nonzero; lia].
      rewrite Hm. apply Z.div_mul. apply Z.pow_nonzero; lia. }
  rewrite Ha. destruct (Z.ltb_spec z 0); lia.
Qed.

Section WholeNumbers.
Variable int_of_str : string -> option Z.
Variable float_of_str : string -> option float.

(** X19: whole numbers below 2^53 in size pass through [float] and [int]
    unchanged: a field sent as a JSON integer is converted to the float of
    the same value without overflow, and a port sent as the float of a
    whole number is read as that number. *)
Theorem X19_whole_numbers_round_trip z :
  Z.abs z < 2 ^ 53 ->
  py_float float_of_str (JInt z) = Ok (float_of_Z z) /\
  py_int int_of_str (JFloat (float_of_Z z)) = Ok z /\
  (r <- py_float float_of_str (JInt z) ;; py_int int_of_str (JFloat r))%result = Ok z.
Proof.
  intros Hz.
  assert (Hfin : is_infinity (float_of_Z z) = false).
  { destruct (float_of_Z_whole z Hz) as [[_ H]|(m & e & H & _)].
    - by eapply Prim2SF_zero_not_infinity.
    - by eapply Prim2SF_finite_not_infinity. }
  pose proof (int_of_float_whole z Hz) as Hint.
  simpl. rewrite Hfin. simpl. by rewrite Hint.
Qed.

End WholeNumbers.

(** ** The runtime text determines the runtime *)

Lemma split_at_char c s1 : forall s2 t1 t2,
  occurs c s1 = false -> occurs c s2 = false ->
  s1 +:+ String c t1 = s2 +:+ String c t2 -> s1 = s2 /\ t1 = t2.
Proof.
  induction s1 as [|a s1 IH]; intros [|b s2] t1 t2 H1 H2 Heq; simpl in *.
  - by injection Heq.
  - injection Heq as <- _. by rewrite bool_decide_eq_true_2 in H2.
  - injection Heq as -> _. by rewrite bool_decide_eq_true_2 in H1.
  - injection Heq as -> Heq.
    apply orb_false_iff in H1 as [_ H1]. apply orb_false_iff in H2 as [_ H2].
    destruct (IH s2 t1 t2 H1 H2 Heq) as [-> ->]. done.
Qed.

Lemma occurs_pretty_N_go c x : forall s,
  (forall n, pretty_N_char n <> c) ->
  occurs c (pretty_N_go x s) = occurs c s.
Proof.
  induction (N.lt_wf_0 x) as [x _ IH]; intros s Hc.
  destruct (decide (x = 0)%N) as [->|Hx]; [by rewrite pretty_N_go_0|].
  rewrite pretty_N_go_step by lia.
  rewrite IH; [|apply N.div_lt; lia|done]. simpl.
  by rewrite bool_decide_eq_false_2 by apply Hc.
Qed.

Lemma occurs_pretty_Z c (z : Z) :
  (forall n, pretty_N_char n <> c) -> c <> "-"%char -> occurs c (pretty z) = false.
Proof.
  intros Hc Hdash.
  assert (Hpos : forall p : positive, occurs c (pretty p) = false).
  { intros p. unfold pretty, pretty_positive, pretty, pretty_N.
    rewrite decide_False by done. by rewrite occurs_pretty_N_go. }
  destruct z as [|p|p]; unfold pretty, pretty_Z.
  - simpl. rewrite bool_decide_eq_false_2; [done|]. apply (Hc 0%N).
  - apply Hpos.
  - change (occurs c ("-" +:+ pretty p))
      with (bool_decide ("-"%char = c) || occurs c (pretty p)).
    rewrite Hpos. by rewrite bool_decide_eq_false_2 by congruence.
Qed.

Lemma digit_not_h n : pretty_N_char n <> "h"%char.
Proof. unfold pretty_N_char. by repeat case_match. Qed.

Lemma digit_not_m n : pretty_N_char n <> "m"%char.
Proof. unfold pretty_N_char. by repeat case_match. Qed.

(** X20: the text shown for a runtime determines the runtime: two numbers of
    minutes with the same text are the same number. *)
Theorem X20_format_runtime_injective (m1 m2 : Z) :
  format_runtime m1 = format_runtime m2 -> m1 = m2.
Proof.
  unfold format_runtime. cbv zeta. intros Heq.
  change ("h " +:+ ?s) with (String "h" (String " " s)) in Heq.
  apply split_at_char in Heq as [Hh Hm];
    [|by apply occurs_pretty_Z; [apply digit_not_h|]..].
  injection Hm as Hm. change "m" with (String "m" EmptyString) in Hm.
  apply split_at_char in Hm as [Hm _];
    [|by apply occurs_pretty_Z; [apply digit_not_m|]..].
  apply (inj pretty) in Hh, Hm.
  rewrite (Z.div_mod m1 60), (Z.div_mod m2 60) by lia. by rewrite Hh, Hm.
Qed.

(** ** Accumulation on existing buckets *)


(** ** Instances of the further conditional statements *)

Lemma X2_rate_set_then_get_witness :
  let o := update_electricity_rate not_a_numeral (<["rate" := JFloat 9.5]> ∅) empty_db in
  reply o = Response Success 200 /\ get_electricity_rate (store o) = 9.5%float.
Proof.
  intros o.
  pose proof (X2_rate_set_then_get not_a_numeral (Date 2024 2 10)
                (<["rate" := JFloat 9.5]> ∅) empty_db (JFloat 9.5) 9.5%float
                eq_refl eq_refl) as (H1 & H2 & _).
  exact (conj H1 H2).
Defined.


Lemma X7_runtime_never_decreases_witness :
  let now := Date 2024 2 10 in
  exists r', daily_consumption (committed (ingest now 1 220 2.7 600 (one_bucket now)))
               !! 0%nat = Some r' /\
             1 <= DailyConsumption.runtime_minutes r' <= 1 + 1.
Proof.
  intros now.
  destruct (X7_runtime_never_decreases now 1 220%float 2.7%float 600%float
              (one_bucket now) 0%nat (DailyConsumption.Build now 1 0.01 0.08 1) eq_refl)
    as (r' & H & _ & _ & Hrun).
  exists r'. exact (conj H Hrun).
Defined.


Lemma X9_dashboard_reads_witness :
  get_dashboard_data (Date 2024 2 10) empty_db =
  get_dashboard_data (Date 2024 2 10)
    (Database [RealtimeData.Build 9 230 1 230 "online"] [] [] []).
Proof.
  apply X9_dashboard_reads. split; [reflexivity|].
  rewrite py_range_1_5. repeat constructor.
Defined.

Lemma X10_ports_commute_witness :
  let now := Date 2024 2 10 in
  get_dashboard_data now
    (committed (ingest now 2 219 1 219
                  (committed (ingest now 1 220 2.7 600 (one_bucket now))))) =
  get_dashboard_data now
    (committed (ingest now 1 220 2.7 600
                  (committed (ingest now 2 219 1 219 (one_bucket now))))).
Proof.
  intros now.
  exact (X10_ports_commute now now now 1 2 220%float 2.7%float 600%float
           219%float 1%float 219%float (one_bucket now) ltac:(discriminate)).
Defined.

Lemma X13_data_route_reads_four_fields_witness :
  let body := sample_body (JInt 1) (JFloat 220) (JFloat 2.7) (JFloat 600) in
  receive_esp_data not_a_numeral not_a_numeral (Date 2024 2 10) body empty_db =
  receive_esp_data not_a_numeral not_a_numeral (Date 2024 2 10)
    (<["device" := JStr "esp8266"]> body) empty_db.
Proof.
  intros body. apply X13_data_route_reads_four_fields. repeat constructor.
Defined.

Lemma X14_routes_keep_rows_unique_witness :
  let now := Date 2024 2 10 in
  let body := sample_body (JInt 1) (JFloat 220) (JFloat 2.7) (JFloat 600) in
  let rate_body : gmap string json := <["rate" := JFloat 9.5]> ∅ in
  let db := one_bucket now in
  unique_rows (init_database db) /\
  unique_rows (store (receive_esp_data not_a_numeral not_a_numeral now body db)) /\
  unique_rows (store (reset_daily_data now db)) /\
  unique_rows (store (update_electricity_rate not_a_numeral rate_body db)).
Proof.
  intros now body rate_body db.
  apply (X14_routes_keep_rows_unique not_a_numeral not_a_numeral now body rate_body db).
  repeat split.
  - intros port. apply Nat.le_0_l.
  - intros d port. unfold count. simpl. destruct (daily_key d port _); simpl; lia.
  - intros y m port. unfold count. simpl. destruct (monthly_key y m port _); simpl; lia.
  - apply Nat.le_0_l.
Defined.

Lemma X17_generator_idle_or_running_witness :
  let now := Date 2024 2 10 in
  exists v c,
    sample_port now 1 (one_bucket now, Rng (fun _ => 0.5%float) 0) =
      (committed (ingest now 1 v c (float_of_Z 800 + float_of_Z (1200 - 800) * 0.5)
                    (one_bucket now)),
       Rng (fun _ => 0.5%float) 3, None) /\
    (0 <? float_of_Z 800 + float_of_Z (1200 - 800) * 0.5)%float = true.
Proof.
  intros now.
  destruct (proj2 (X17_generator_idle_or_running now 1 (one_bucket now)
                     (Rng (fun _ => 0.5%float) 0)
                     (DailyConsumption.Build now 1 0.01 0.08 1)
                     (MonthlyConsumption.Build 2024 2 1 0.01 0.08)
                     ltac:(lia) eq_refl eq_refl)
              eq_refl eq_refl eq_refl) as (base & _ & Hrun & _ & Hpos & _).
  eexists _, _. exact (conj Hrun Hpos).
Defined.

Lemma X19_whole_numbers_round_trip_witness :
  py_int not_a_numeral (JFloat (float_of_Z 3)) = Ok 3.
Proof.
  exact (proj1 (proj2 (X19_whole_numbers_round_trip not_a_numeral not_a_numeral 3
                         eq_refl))).
Defined.

Lemma X20_format_runtime_injective_witness : 60 + 65 = 125.
Proof. exact (X20_format_runtime_injective (60 + 65) 125 eq_refl). Defined.


